(** * Appointment router ([routers/appointments.py]) of the Lunysse backend

    A shallow embedding of the five request handlers of the appointment
    router, together with the properties of its booking rule.

    The handlers talk to a relational store through an ORM session and send
    e-mails.  Both are made explicit: a handler is a function in a small
    monad [M] that threads a [World] (the tables of the store and the list
    of e-mails handed to the mail service) and may raise an exception. *)

From Stdlib Require Import ZArith List String Bool Lia.
Import ListNotations.

Local Open Scope string_scope.
Local Open Scope Z_scope.

(** ** models.models *)

(** Modelled from the spec: [models.models.AppointmentStatus] is not part of
    the sources at hand; the data model gives the two lifecycle states, which
    are the two members the router refers to. *)
Inductive AppointmentStatus : Set := AGENDADO | CANCELADO.

(** Modelled from the spec: [models.models.UserType] is not part of the
    sources at hand; the router only tests for [PSICOLOGO], every other
    caller is a patient. *)
Inductive UserType : Set := PSICOLOGO | PACIENTE.

Definition AppointmentStatus_eqb (x y : AppointmentStatus) : bool :=
  match x, y with
  | AGENDADO, AGENDADO | CANCELADO, CANCELADO => true
  | _, _ => false
  end.

Definition UserType_eqb (x y : UserType) : bool :=
  match x, y with
  | PSICOLOGO, PSICOLOGO | PACIENTE, PACIENTE => true
  | _, _ => false
  end.

(** Modelled from the spec: the columns of [models.models.Appointment], as
    the data model lists them and as the router reads them. *)
Module Appointment.
Record t : Set := mk {
  id : Z;
  patient_id : Z;
  psychologist_id : Z;
  date : string;
  time : string;
  status : AppointmentStatus
}.
End Appointment.

(** Modelled from the spec: the columns of [models.models.User] that the
    router reads. *)
Module User.
Record t : Set := mk {
  id : Z;
  name : string;
  email : string;
  type : UserType
}.
End User.

(** Modelled from the spec: the columns of [models.models.Patient] that the
    router reads. *)
Module Patient.
Record t : Set := mk {
  id : Z;
  name : string;
  email : string
}.
End Patient.

(** ** schemas.schemas *)

(** Modelled from the spec: the creation payload carries the appointment
    minus the generated fields. *)
Module AppointmentCreate.
Record t : Set := mk {
  patient_id : Z;
  psychologist_id : Z;
  date : string;
  time : string
}.
End AppointmentCreate.

(** Modelled from the spec: the partial update payload carries the mutable
    fields (date, time, status); [None] is a field the caller did not set,
    [Some v] a field the caller set to the value [v]. *)
Module AppointmentUpdate.
Record t : Set := mk {
  date : option string;
  time : option string;
  status : option AppointmentStatus
}.
End AppointmentUpdate.

(** One entry of [update_data.dict(exclude_unset=True)]. *)
Inductive FieldValue : Set :=
| F_date (value : string)
| F_time (value : string)
| F_status (value : AppointmentStatus).

Definition dict_exclude_unset (u : AppointmentUpdate.t) : list FieldValue :=
  match AppointmentUpdate.date u with Some v => [F_date v] | None => [] end ++
  match AppointmentUpdate.time u with Some v => [F_time v] | None => [] end ++
  match AppointmentUpdate.status u with Some v => [F_status v] | None => [] end.

Definition setattr (a : Appointment.t) (fv : FieldValue) : Appointment.t :=
  match fv with
  | F_date v =>
      Appointment.mk (Appointment.id a) (Appointment.patient_id a)
        (Appointment.psychologist_id a) v (Appointment.time a)
        (Appointment.status a)
  | F_time v =>
      Appointment.mk (Appointment.id a) (Appointment.patient_id a)
        (Appointment.psychologist_id a) (Appointment.date a) v
        (Appointment.status a)
  | F_status v =>
      Appointment.mk (Appointment.id a) (Appointment.patient_id a)
        (Appointment.psychologist_id a) (Appointment.date a)
        (Appointment.time a) v
  end.

(** The loop [for field, value in ...items(): setattr(appointment, field, value)]. *)
Definition apply_update (update_data : AppointmentUpdate.t)
  (a : Appointment.t) : Appointment.t :=
  fold_left setattr (dict_exclude_unset update_data) a.

(** The value a column holds after an update: the payload's value when the
    caller provided one, the stored value otherwise. *)
Definition provided {A} (field : option A) (old : A) : A :=
  match field with Some v => v | None => old end.

(** ** The store, the mail service and the handler monad *)

Inductive Email : Set :=
| EmailAppointment (client_email client_name date time : string)
| EmailAppointmentRescheduled (client_email client_name date time : string)
| EmailAppointmentCanceled (client_email client_name psychologist_name : string).

Record Session : Set := mkSession {
  appointments : list Appointment.t;
  patients : list Patient.t;
  users : list User.t
}.

Record World : Set := mkWorld {
  db : Session;
  outbox : list Email
}.

Inductive Exception : Set :=
| HTTPException (status_code : Z) (detail : string)
| InvalidRequestError.

Definition HTTP_400_BAD_REQUEST : Z := 400.
Definition HTTP_403_FORBIDDEN : Z := 403.
Definition HTTP_404_NOT_FOUND : Z := 404.

Inductive Outcome (A : Type) : Type :=
| Return (a : A)
| Raise (e : Exception).
Arguments Return {A} a.
Arguments Raise {A} e.

Definition M (A : Type) : Type := World -> Outcome A * World.

Definition ret {A} (a : A) : M A := fun w => (Return a, w).

Definition raise {A} (e : Exception) : M A := fun w => (Raise e, w).

Definition bind {A B} (c : M A) (k : A -> M B) : M B :=
  fun w =>
    match c w with
    | (Return a, w') => k a w'
    | (Raise e, w') => (Raise e, w')
    end.

Notation "x <- c ;; k" := (bind c (fun x => k))
  (at level 61, c at next level, right associativity).
Notation "c ;;; k" := (bind c (fun _ => k))
  (at level 61, right associativity).

(** The filter of a lookup by primary key, [Appointment.id == k]. *)
Definition by_id (k : Z) (r : Appointment.t) : bool := Appointment.id r =? k.

(** [db.query(T).filter(p).first()] and [.all()], for each table. *)
Definition query_first {T} (table : Session -> list T) (p : T -> bool)
  : M (option T) :=
  fun w => (Return (find p (table (db w))), w).

Definition query_all {T} (table : Session -> list T) (p : T -> bool)
  : M (list T) :=
  fun w => (Return (filter p (table (db w))), w).

(** The key the store gives to the next inserted row: one above every key
    in the table. *)
Definition autoincrement (rows : list Appointment.t) : Z :=
  fold_right (fun r acc => Z.max (Appointment.id r) acc) 0 rows + 1.

(** [db.add(obj); db.commit()] for an object whose primary key is still
    unset: the store appends the row under a generated key. *)
Definition add_commit (pending : Z -> Appointment.t) : M Appointment.t :=
  fun w =>
    let s := db w in
    let obj := pending (autoincrement (appointments s)) in
    (Return obj,
     mkWorld (mkSession (appointments s ++ [obj]) (patients s) (users s))
             (outbox w)).

(** The UPDATE a commit issues for a loaded object: the row with the
    object's primary key takes the object's columns. *)
Fixpoint write_row (obj : Appointment.t) (rows : list Appointment.t)
  : list Appointment.t :=
  match rows with
  | [] => []
  | r :: rs =>
      if Appointment.id r =? Appointment.id obj then obj :: rs
      else r :: write_row obj rs
  end.

Definition commit (obj : Appointment.t) : M unit :=
  fun w =>
    let s := db w in
    (Return tt,
     mkWorld (mkSession (write_row obj (appointments s)) (patients s) (users s))
             (outbox w)).

(** [db.refresh(obj)]: the object is read again by primary key. *)
Definition refresh (obj : Appointment.t) : M Appointment.t :=
  fun w =>
    match find (by_id (Appointment.id obj)) (appointments (db w)) with
    | Some r => (Return r, w)
    | None => (Raise InvalidRequestError, w)
    end.

(** Modelled from the spec: [services.email_service] is not part of the
    sources at hand; a dispatch is recorded as one more entry of the
    outbox.  The service is taken to deliver: a dispatch that raises, which
    would end the request after its commit, is outside this model. *)
Definition send (e : Email) : M unit :=
  fun w => (Return tt, mkWorld (db w) (outbox w ++ [e])).

Definition send_email_appointment (client_email client_name date time : string)
  : M unit :=
  send (EmailAppointment client_email client_name date time).

Definition send_email_appointment_rescheduled
  (client_email client_name date time : string) : M unit :=
  send (EmailAppointmentRescheduled client_email client_name date time).

Definition send_email_appointment_canceled
  (client_email client_name psychologist_name : string) : M unit :=
  send (EmailAppointmentCanceled client_email client_name psychologist_name).

(** ** The handlers *)

Definition get_appointments (current_user : User.t)
  : M (list Appointment.t) :=
  if UserType_eqb (User.type current_user) PSICOLOGO then
    query_all appointments
      (fun a => Appointment.psychologist_id a =? User.id current_user)
  else
    patient <- query_first patients
      (fun p => String.eqb (Patient.email p) (User.email current_user)) ;;
    match patient with
    | None => ret []
    | Some patient =>
        query_all appointments
          (fun a => Appointment.patient_id a =? Patient.id patient)
    end.

(** The filter of the availability check of [create_appointment]. *)
Definition slot_taken (psychologist_id : Z) (date time : string)
  (a : Appointment.t) : bool :=
  (Appointment.psychologist_id a =? psychologist_id)
  && String.eqb (Appointment.date a) date
  && String.eqb (Appointment.time a) time
  && AppointmentStatus_eqb (Appointment.status a) AGENDADO.

Definition create_appointment (appointment_data : AppointmentCreate.t)
  (current_user : User.t) : M Appointment.t :=
  existing <- query_first appointments
    (slot_taken (AppointmentCreate.psychologist_id appointment_data)
                (AppointmentCreate.date appointment_data)
                (AppointmentCreate.time appointment_data)) ;;
  match existing with
  | Some _ =>
      raise (HTTPException HTTP_400_BAD_REQUEST "Horário não disponível")
  | None =>
      db_appointment <- add_commit (fun pk =>
        Appointment.mk pk
          (AppointmentCreate.patient_id appointment_data)
          (AppointmentCreate.psychologist_id appointment_data)
          (AppointmentCreate.date appointment_data)
          (AppointmentCreate.time appointment_data)
          AGENDADO) ;;
      db_appointment <- refresh db_appointment ;;
      patient <- query_first patients
        (fun p => Patient.id p =? Appointment.patient_id db_appointment) ;;
      match patient with
      | Some patient =>
          send_email_appointment (Patient.email patient) (Patient.name patient)
            (Appointment.date db_appointment)
            (Appointment.time db_appointment)
      | None => ret tt
      end ;;;
      ret db_appointment
  end.

Definition update_appointment (appointment_id : Z)
  (update_data : AppointmentUpdate.t) (current_user : User.t)
  : M Appointment.t :=
  appointment <- query_first appointments
    (by_id appointment_id) ;;
  match appointment with
  | None =>
      raise (HTTPException HTTP_404_NOT_FOUND "Agendamento não encontrado")
  | Some appointment =>
      if UserType_eqb (User.type current_user) PSICOLOGO
         && negb (Appointment.psychologist_id appointment
                  =? User.id current_user)
      then
        raise (HTTPException HTTP_403_FORBIDDEN
                 "Sem permissão para alterar este agendamento")
      else
        let old_date := Appointment.date appointment in
        let old_time := Appointment.time appointment in
        let appointment := apply_update update_data appointment in
        commit appointment ;;;
        appointment <- refresh appointment ;;
        (if negb (String.eqb (Appointment.date appointment) old_date)
            || negb (String.eqb (Appointment.time appointment) old_time)
         then
           patient <- query_first patients
             (fun p => Patient.id p =? Appointment.patient_id appointment) ;;
           match patient with
           | Some patient =>
               send_email_appointment_rescheduled
                 (Patient.email patient) (Patient.name patient)
                 (Appointment.date appointment) (Appointment.time appointment)
           | None => ret tt
           end
         else ret tt) ;;;
        ret appointment
  end.

Definition cancel_appointment (appointment_id : Z) (current_user : User.t)
  : M (list (string * string)) :=
  appointment <- query_first appointments
    (by_id appointment_id) ;;
  match appointment with
  | None =>
      raise (HTTPException HTTP_404_NOT_FOUND "Agendamento não encontrado")
  | Some appointment =>
      let appointment := setattr appointment (F_status CANCELADO) in
      commit appointment ;;;
      patient <- query_first patients
        (fun p => Patient.id p =? Appointment.patient_id appointment) ;;
      psychologist <- query_first users
        (fun u => User.id u =? Appointment.psychologist_id appointment) ;;
      match patient, psychologist with
      | Some patient, Some psychologist =>
          send_email_appointment_canceled
            (Patient.email patient) (Patient.name patient)
            (User.name psychologist)
      | _, _ => ret tt
      end ;;;
      ret [("message", "Agendamento cancelado com sucesso")]
  end.

Definition all_slots : list string :=
  ["09:00"; "10:00"; "11:00"; "14:00"; "15:00"; "16:00"; "17:00"].

(** The query selects the [time] column of the matching rows; here the rows
    are selected and the column is projected afterwards. *)
Definition get_available_slots (date : string) (psychologist_id : Z)
  : M (list string) :=
  occupied <- query_all appointments
    (fun a => String.eqb (Appointment.date a) date
              && (Appointment.psychologist_id a =? psychologist_id)
              && AppointmentStatus_eqb (Appointment.status a) AGENDADO) ;;
  let occupied_times := map Appointment.time occupied in
  let available :=
    filter (fun slot => negb (existsb (String.eqb slot) occupied_times))
           all_slots in
  ret available.

(** ** Vocabulary of the properties *)

(** An appointment that holds a slot: it is SCHEDULED for that practitioner,
    date and time. *)
Definition scheduled_at (psychologist_id : Z) (date time : string)
  (a : Appointment.t) : Prop :=
  Appointment.psychologist_id a = psychologist_id
  /\ Appointment.date a = date
  /\ Appointment.time a = time
  /\ Appointment.status a = AGENDADO.

Definition slot_occupied (w : World) (psychologist_id : Z)
  (date time : string) : Prop :=
  exists a, In a (appointments (db w))
            /\ scheduled_at psychologist_id date time a.

(** The handler ended in an [HTTPException] with the given status code. *)
Definition raises {A} (status_code : Z) (r : Outcome A * World) : Prop :=
  exists detail, fst r = Raise (HTTPException status_code detail).

(** The row the store inserts for a creation payload. *)
Definition new_row (data : AppointmentCreate.t) (rows : list Appointment.t)
  : Appointment.t :=
  Appointment.mk (autoincrement rows)
    (AppointmentCreate.patient_id data)
    (AppointmentCreate.psychologist_id data)
    (AppointmentCreate.date data)
    (AppointmentCreate.time data)
    AGENDADO.

(** The Patient record an appointment refers to, if the store has one. *)
Definition patient_of (s : Session) (a : Appointment.t) : option Patient.t :=
  find (fun p => Patient.id p =? Appointment.patient_id a) (patients s).

Definition psychologist_of (s : Session) (a : Appointment.t) : option User.t :=
  find (fun u => User.id u =? Appointment.psychologist_id a) (users s).

(** The e-mails each handler hands to the mail service. *)
Definition created_mail (s : Session) (a : Appointment.t) : list Email :=
  match patient_of s a with
  | Some p =>
      [EmailAppointment (Patient.email p) (Patient.name p)
         (Appointment.date a) (Appointment.time a)]
  | None => []
  end.

Definition moved (old new : Appointment.t) : bool :=
  negb (String.eqb (Appointment.date new) (Appointment.date old))
  || negb (String.eqb (Appointment.time new) (Appointment.time old)).

Definition rescheduled_mail (s : Session) (old new : Appointment.t)
  : list Email :=
  if moved old new then
    match patient_of s new with
    | Some p =>
        [EmailAppointmentRescheduled (Patient.email p) (Patient.name p)
           (Appointment.date new) (Appointment.time new)]
    | None => []
    end
  else [].

Definition canceled_mail (s : Session) (a : Appointment.t) : list Email :=
  match patient_of s a, psychologist_of s a with
  | Some p, Some u =>
      [EmailAppointmentCanceled (Patient.email p) (Patient.name p)
         (User.name u)]
  | _, _ => []
  end.

(** The authorization test of [update_appointment]. *)
Definition forbidden (current_user : User.t) (a : Appointment.t) : bool :=
  UserType_eqb (User.type current_user) PSICOLOGO
  && negb (Appointment.psychologist_id a =? User.id current_user).

(** [Subseq l m]: [l] is [m] with some elements left out, in [m]'s order. *)
Inductive Subseq {A : Type} : list A -> list A -> Prop :=
| Subseq_nil : Subseq [] []
| Subseq_skip x l m : Subseq l m -> Subseq l (x :: m)
| Subseq_keep x l m : Subseq l m -> Subseq (x :: l) (x :: m).

(** Primary keys are unique in the appointment table. *)
Definition pk_unique (w : World) : Prop :=
  NoDup (map Appointment.id (appointments (db w))).

(** The state-changing requests of the router, and a client session as a
    sequence of them; the responses are dropped. *)
Inductive Request : Set :=
| Create (appointment_data : AppointmentCreate.t) (current_user : User.t)
| Update (appointment_id : Z) (update_data : AppointmentUpdate.t)
         (current_user : User.t)
| Cancel (appointment_id : Z) (current_user : User.t).

Definition handle (w : World) (rq : Request) : World :=
  match rq with
  | Create data u => snd (create_appointment data u w)
  | Update k data u => snd (update_appointment k data u w)
  | Cancel k u => snd (cancel_appointment k u w)
  end.

Definition serve (requests : list Request) (w : World) : World :=
  fold_left handle requests w.

(** The request reopens appointment [k] on the store [w]: it is an update of
    that appointment that succeeds there and whose payload provides the
    status SCHEDULED. *)
Definition reopens (k : Z) (w : World) (rq : Request) : Prop :=
  match rq with
  | Update k' data u =>
      k' = k
      /\ AppointmentUpdate.status data = Some AGENDADO
      /\ exists obj w', update_appointment k' data u w = (Return obj, w')
  | _ => False
  end.

(** Some request of the session, served in order from [w], reopens [k] on
    the store it meets. *)
Fixpoint reopened (k : Z) (requests : list Request) (w : World) : Prop :=
  match requests with
  | [] => False
  | rq :: rest => reopens k w rq \/ reopened k rest (handle w rq)
  end.

(** Modelled from the spec: the data model has [time] as one of the fixed
    slot labels; the schema that would say so is not part of the sources at
    hand, so the columns are strings and the store is said to keep to the
    data model when every stored time is a label. *)
Definition slot_times (w : World) : Prop :=
  forall r, In r (appointments (db w)) -> In (Appointment.time r) all_slots.

(** A request whose payload keeps to the data model: the time it provides,
    if any, is a slot label. *)
Definition labelled (rq : Request) : Prop :=
  match rq with
  | Create data _ => In (AppointmentCreate.time data) all_slots
  | Update _ data _ =>
      forall t, AppointmentUpdate.time data = Some t -> In t all_slots
  | Cancel _ _ => True
  end.

(** No practitioner has two SCHEDULED appointments, under different ids, at
    one date and time. *)
Definition no_double_booking (w : World) : Prop :=
  forall a b,
    In a (appointments (db w)) -> In b (appointments (db w)) ->
    Appointment.status a = AGENDADO -> Appointment.status b = AGENDADO ->
    Appointment.psychologist_id a = Appointment.psychologist_id b ->
    Appointment.date a = Appointment.date b ->
    Appointment.time a = Appointment.time b ->
    Appointment.id a = Appointment.id b.

Definition is_update (rq : Request) : Prop :=
  match rq with
  | Update _ _ _ => True
  | _ => False
  end.

(** The columns of the appointment table no handler assigns to after the
    insert: id, patient and practitioner, row by row. *)
Definition keys (w : World) : list (Z * Z * Z) :=
  map (fun a => (Appointment.id a, Appointment.patient_id a,
                 Appointment.psychologist_id a))
      (appointments (db w)).

(** The filter of the patient lookup of [get_appointments]. *)
Definition by_email (current_user : User.t) (p : Patient.t) : bool :=
  String.eqb (Patient.email p) (User.email current_user).

(** The filter [get_appointments] ends up applying to the appointment table
    for a caller, given the patients table. *)
Definition shown_to (current_user : User.t) (ps : list Patient.t)
  (a : Appointment.t) : bool :=
  if UserType_eqb (User.type current_user) PSICOLOGO then
    Appointment.psychologist_id a =? User.id current_user
  else
    match find (by_email current_user) ps with
    | Some patient => Appointment.patient_id a =? Patient.id patient
    | None => false
    end.

(** ** A small practice, for the worked examples *)

Definition ana : Patient.t := Patient.mk 1 "Ana" "ana@example.com".

Definition dr_silva : User.t :=
  User.mk 10 "Dra. Silva" "silva@example.com" PSICOLOGO.

Definition dr_costa : User.t :=
  User.mk 11 "Dr. Costa" "costa@example.com" PSICOLOGO.

Definition ana_user : User.t := User.mk 20 "Ana" "ana@example.com" PACIENTE.

(** Two sessions booked with Dra. Silva on 10 March, one canceled on the
    11th, and one booked for a patient the store has no record of. *)
Definition clinic : World :=
  mkWorld
    (mkSession
       [Appointment.mk 1 1 10 "2025-03-10" "10:00" AGENDADO;
        Appointment.mk 2 1 10 "2025-03-10" "15:00" AGENDADO;
        Appointment.mk 3 1 10 "2025-03-11" "09:00" CANCELADO;
        Appointment.mk 4 7 10 "2025-03-12" "11:00" AGENDADO]
       [ana]
       [dr_silva; dr_costa; ana_user])
    [].

(** A practice before its first booking. *)
Definition opening_day : World :=
  mkWorld (mkSession [] [ana] [dr_silva; ana_user]) [].

(** ** Equality tests *)

Lemma AppointmentStatus_eqb_eq x y :
  AppointmentStatus_eqb x y = true <-> x = y.
Proof. destruct x, y; simpl; split; congruence. Qed.

Lemma UserType_eqb_eq x y : UserType_eqb x y = true <-> x = y.
Proof. destruct x, y; simpl; split; congruence. Qed.

Lemma slot_taken_true psychologist_id date time a :
  slot_taken psychologist_id date time a = true <->
  Appointment.psychologist_id a = psychologist_id
  /\ Appointment.date a = date
  /\ Appointment.time a = time
  /\ Appointment.status a = AGENDADO.
Proof.
  unfold slot_taken.
  rewrite !andb_true_iff, Z.eqb_eq, !String.eqb_eq, AppointmentStatus_eqb_eq.
  tauto.
Qed.

(** ** The store: generated keys, writes and reads by primary key *)

Lemma autoincrement_above rows r :
  In r rows -> Appointment.id r < autoincrement rows.
Proof.
  unfold autoincrement.
  induction rows as [|x rows IH]; simpl; [tauto|].
  intros [->|Hin]; [lia|].
  specialize (IH Hin). lia.
Qed.

Lemma find_by_id_None k rows :
  find (by_id k) rows = None <->
  forall r, In r rows -> Appointment.id r <> k.
Proof.
  split.
  - intros Hnone r Hin Hk.
    apply (find_none _ _ Hnone) in Hin.
    unfold by_id in Hin. apply Z.eqb_neq in Hin. contradiction.
  - intros Hall. induction rows as [|x rows IH]; simpl; [reflexivity|].
    unfold by_id at 1.
    destruct (Z.eqb_spec (Appointment.id x) k) as [Hk|_].
    + exfalso. apply (Hall x); [left; reflexivity | exact Hk].
    + apply IH. intros r Hin. apply Hall. right. exact Hin.
Qed.

Lemma find_by_id_Some k rows a :
  find (by_id k) rows = Some a -> In a rows /\ Appointment.id a = k.
Proof.
  intros H. apply find_some in H. unfold by_id in H.
  rewrite Z.eqb_eq in H. exact H.
Qed.

Lemma find_by_id_inserted rows obj :
  Appointment.id obj = autoincrement rows ->
  find (by_id (Appointment.id obj)) (rows ++ [obj]) = Some obj.
Proof.
  intros Hpk.
  assert (Hfresh : forall r, In r rows -> Appointment.id r <> Appointment.id obj).
  { intros r Hin. apply autoincrement_above in Hin. lia. }
  clear Hpk. induction rows as [|x rows IH]; simpl.
  - unfold by_id. rewrite Z.eqb_refl. reflexivity.
  - unfold by_id at 1.
    destruct (Z.eqb_spec (Appointment.id x) (Appointment.id obj)) as [Hk|_].
    + exfalso. apply (Hfresh x); [left; reflexivity | exact Hk].
    + apply IH. intros r Hin. apply Hfresh. right. exact Hin.
Qed.

Lemma find_by_id_written rows obj a :
  find (by_id (Appointment.id obj)) rows = Some a ->
  find (by_id (Appointment.id obj)) (write_row obj rows) = Some obj.
Proof.
  induction rows as [|x rows IH]; simpl; [discriminate|].
  unfold by_id at 1.
  destruct (Z.eqb_spec (Appointment.id x) (Appointment.id obj)) as [Hk|Hk].
  - intros _. simpl. unfold by_id. rewrite Z.eqb_refl. reflexivity.
  - intros H. simpl. unfold by_id at 1.
    destruct (Z.eqb_spec (Appointment.id x) (Appointment.id obj)); [contradiction|].
    apply IH. exact H.
Qed.

Lemma write_row_length obj rows :
  List.length (write_row obj rows) = List.length rows.
Proof.
  induction rows as [|x rows IH]; simpl; [reflexivity|].
  destruct (Appointment.id x =? Appointment.id obj); simpl; congruence.
Qed.

Lemma write_row_In obj rows r :
  In r (write_row obj rows) -> In r rows \/ r = obj.
Proof.
  induction rows as [|x rows IH]; simpl; [tauto|].
  destruct (Appointment.id x =? Appointment.id obj); simpl.
  - intros [<-|H]; auto.
  - intros [<-|H]; auto. destruct (IH H); auto.
Qed.

(** Rows under another key are not touched by a write. *)
Lemma write_row_other obj rows r :
  In r rows -> Appointment.id r <> Appointment.id obj ->
  In r (write_row obj rows).
Proof.
  induction rows as [|x rows IH]; simpl; [tauto|].
  intros [->|Hin] Hk.
  - destruct (Z.eqb_spec (Appointment.id r) (Appointment.id obj));
      [contradiction | left; reflexivity].
  - destruct (Appointment.id x =? Appointment.id obj); simpl; auto.
Qed.

(** ** The partial update *)

Lemma apply_update_fields u a :
  apply_update u a =
  Appointment.mk (Appointment.id a) (Appointment.patient_id a)
    (Appointment.psychologist_id a)
    (provided (AppointmentUpdate.date u) (Appointment.date a))
    (provided (AppointmentUpdate.time u) (Appointment.time a))
    (provided (AppointmentUpdate.status u) (Appointment.status a)).
Proof.
  destruct u as [[d|] [t|] [s|]], a; reflexivity.
Qed.

Lemma apply_update_id u a :
  Appointment.id (apply_update u a) = Appointment.id a.
Proof. rewrite apply_update_fields. reflexivity. Qed.

(** ** What each handler computes *)

Ltac run_handler :=
  unfold bind, ret, raise, query_first, query_all, add_commit, commit, refresh,
    send_email_appointment, send_email_appointment_rescheduled,
    send_email_appointment_canceled, send; simpl.

Lemma create_appointment_run data u w :
  create_appointment data u w =
  match find (slot_taken (AppointmentCreate.psychologist_id data)
                (AppointmentCreate.date data) (AppointmentCreate.time data))
             (appointments (db w)) with
  | Some _ =>
      (Raise (HTTPException HTTP_400_BAD_REQUEST "Horário não disponível"), w)
  | None =>
      let obj := new_row data (appointments (db w)) in
      (Return obj,
       mkWorld (mkSession (appointments (db w) ++ [obj]) (patients (db w))
                  (users (db w)))
               (outbox w ++ created_mail (db w) obj))
  end.
Proof.
  unfold create_appointment. run_handler.
  destruct (find _ (appointments (db w))) as [a|]; [reflexivity|].
  fold (new_row data (appointments (db w))).
  set (obj := new_row data (appointments (db w))).
  change (autoincrement (appointments (db w))) with (Appointment.id obj).
  rewrite (find_by_id_inserted (appointments (db w)) obj) by reflexivity.
  unfold created_mail, patient_of. simpl.
  destruct (find _ (patients (db w))) as [p|]; simpl.
  - reflexivity.
  - rewrite app_nil_r. reflexivity.
Qed.

Lemma update_appointment_run k data u w :
  update_appointment k data u w =
  match find (by_id k) (appointments (db w)) with
  | None =>
      (Raise (HTTPException HTTP_404_NOT_FOUND "Agendamento não encontrado"), w)
  | Some a =>
      if forbidden u a then
        (Raise (HTTPException HTTP_403_FORBIDDEN
                  "Sem permissão para alterar este agendamento"), w)
      else
        let obj := apply_update data a in
        (Return obj,
         mkWorld (mkSession (write_row obj (appointments (db w)))
                    (patients (db w)) (users (db w)))
                 (outbox w ++ rescheduled_mail (db w) a obj))
  end.
Proof.
  unfold update_appointment. run_handler.
  destruct (find (by_id k) (appointments (db w))) as [a|] eqn:Hfind;
    [|reflexivity].
  fold (forbidden u a). destruct (forbidden u a); [reflexivity|].
  apply find_by_id_Some in Hfind as Hk. destruct Hk as [_ Hk]. subst k.
  rewrite <- (apply_update_id data a) in Hfind.
  rewrite (find_by_id_written _ _ _ Hfind).
  unfold rescheduled_mail, moved, patient_of. simpl.
  destruct (negb _ || negb _); simpl.
  - destruct (find _ (patients (db w))) as [p|]; simpl.
    + reflexivity.
    + rewrite app_nil_r. reflexivity.
  - rewrite app_nil_r. reflexivity.
Qed.

Lemma cancel_appointment_run k u w :
  cancel_appointment k u w =
  match find (by_id k) (appointments (db w)) with
  | None =>
      (Raise (HTTPException HTTP_404_NOT_FOUND "Agendamento não encontrado"), w)
  | Some a =>
      let obj := setattr a (F_status CANCELADO) in
      (Return [("message", "Agendamento cancelado com sucesso")],
       mkWorld (mkSession (write_row obj (appointments (db w)))
                  (patients (db w)) (users (db w)))
               (outbox w ++ canceled_mail (db w) obj))
  end.
Proof.
  unfold cancel_appointment. run_handler.
  destruct (find (by_id k) (appointments (db w))) as [a|]; [|reflexivity].
  unfold canceled_mail, patient_of, psychologist_of. simpl.
  destruct (find _ (patients (db w))) as [p|];
    [destruct (find _ (users (db w))) as [v|]|]; simpl;
    rewrite ?app_nil_r; reflexivity.
Qed.

Lemma get_available_slots_run date psychologist_id w :
  get_available_slots date psychologist_id w =
  (Return
     (filter
        (fun slot =>
           negb (existsb (String.eqb slot)
                   (map Appointment.time
                      (filter
                         (fun a =>
                            String.eqb (Appointment.date a) date
                            && (Appointment.psychologist_id a =? psychologist_id)
                            && AppointmentStatus_eqb (Appointment.status a)
                                 AGENDADO)
                         (appointments (db w))))))
        all_slots), w).
Proof. reflexivity. Qed.

(** ** Conflicts on creation *)

Lemma find_slot_taken_None psychologist_id date time rows :
  find (slot_taken psychologist_id date time) rows = None <->
  ~ exists a, In a rows /\ scheduled_at psychologist_id date time a.
Proof.
  unfold scheduled_at. split.
  - intros Hnone [a [Hin Hs]].
    apply (find_none _ _ Hnone) in Hin.
    apply slot_taken_true in Hs. congruence.
  - intros Hfree.
    destruct (find _ rows) as [a|] eqn:Hfind; [|reflexivity].
    exfalso. apply Hfree. exists a.
    apply find_some in Hfind. rewrite slot_taken_true in Hfind. exact Hfind.
Qed.

Lemma raises_Raise {A} code code' detail (w : World) :
  raises (A := A) code (Raise (HTTPException code' detail), w) <-> code' = code.
Proof.
  unfold raises; simpl. split.
  - intros [d [= -> _]]. reflexivity.
  - intros ->. exists detail. reflexivity.
Qed.

Lemma raises_Return {A} code (a : A) (w : World) :
  ~ raises code (Return a, w).
Proof. intros [d Hd]. simpl in Hd. discriminate. Qed.

(** C1. [create_appointment] ends in the 400 "slot not available" error
    exactly when the store already holds a SCHEDULED appointment for the
    payload's practitioner, date and time, and then the store is left as it
    was; otherwise it appends one SCHEDULED row that carries the payload's
    fields under a key no stored row has, and returns that stored row. *)
Theorem create_appointment_conflict_iff data u w :
  let taken :=
    slot_occupied w (AppointmentCreate.psychologist_id data)
      (AppointmentCreate.date data) (AppointmentCreate.time data) in
  (raises HTTP_400_BAD_REQUEST (create_appointment data u w) <-> taken)
  /\ (taken ->
      create_appointment data u w =
      (Raise (HTTPException 400 "Horário não disponível"), w))
  /\ (~ taken ->
      exists obj w',
        create_appointment data u w = (Return obj, w')
        /\ Appointment.status obj = AGENDADO
        /\ Appointment.patient_id obj = AppointmentCreate.patient_id data
        /\ Appointment.psychologist_id obj
           = AppointmentCreate.psychologist_id data
        /\ Appointment.date obj = AppointmentCreate.date data
        /\ Appointment.time obj = AppointmentCreate.time data
        /\ (forall r, In r (appointments (db w)) ->
                      Appointment.id r <> Appointment.id obj)
        /\ appointments (db w') = (appointments (db w) ++ [obj])%list
        /\ find (by_id (Appointment.id obj)) (appointments (db w'))
           = Some obj).
Proof.
  intros taken. subst taken. unfold slot_occupied.
  rewrite create_appointment_run.
  destruct (find _ (appointments (db w))) as [a|] eqn:Hfind.
  - assert (Htaken : exists a0, In a0 (appointments (db w))
              /\ scheduled_at (AppointmentCreate.psychologist_id data)
                   (AppointmentCreate.date data)
                   (AppointmentCreate.time data) a0).
    { exists a. apply find_some in Hfind.
      rewrite slot_taken_true in Hfind. exact Hfind. }
    repeat split.
    + intros _. exact Htaken.
    + intros _. apply raises_Raise. reflexivity.
    + intros Hfree. contradiction.
  - apply find_slot_taken_None in Hfind.
    repeat split.
    + intros Hr. exfalso. exact (raises_Return _ _ _ Hr).
    + intros Ht. contradiction.
    + intros Ht. contradiction.
    + intros _.
      exists (new_row data (appointments (db w))). eexists.
      split; [reflexivity|]. simpl.
      repeat split.
      * intros r Hin Heq. apply autoincrement_above in Hin. lia.
      * change (autoincrement (appointments (db w)))
          with (Appointment.id (new_row data (appointments (db w)))).
        apply find_by_id_inserted. reflexivity.
Qed.

(** C10. The caller plays no part in [create_appointment]: two authenticated
    users who send the same payload to the same store get the same response
    and leave the same store behind, whoever the payload's patient and
    practitioner are. *)
Theorem create_appointment_caller_independent data (u1 u2 : User.t) w :
  create_appointment data u1 w = create_appointment data u2 w.
Proof.
  rewrite (create_appointment_run data u1), (create_appointment_run data u2).
  destruct (find _ (appointments (db w))); reflexivity.
Qed.

(** ** Free slots *)

Lemma filter_Subseq {A} (p : A -> bool) l : Subseq (filter p l) l.
Proof.
  induction l as [|x l IH]; simpl; [constructor|].
  destruct (p x); constructor; exact IH.
Qed.

Lemma filter_all {A} (p : A -> bool) l :
  (forall x, In x l -> p x = true) -> filter p l = l.
Proof.
  induction l as [|x l IH]; simpl; intros Hall; [reflexivity|].
  rewrite (Hall x) by (left; reflexivity).
  f_equal. apply IH. intros y Hy. apply Hall. right. exact Hy.
Qed.

Lemma occupied_time date psychologist_id rows slot :
  existsb (String.eqb slot)
    (map Appointment.time
       (filter
          (fun a =>
             String.eqb (Appointment.date a) date
             && (Appointment.psychologist_id a =? psychologist_id)
             && AppointmentStatus_eqb (Appointment.status a) AGENDADO)
          rows)) = true <->
  exists a, In a rows /\ scheduled_at psychologist_id date slot a.
Proof.
  unfold scheduled_at.
  rewrite existsb_exists. split.
  - intros [t [Hin Heq]]. apply String.eqb_eq in Heq. subst t.
    apply in_map_iff in Hin. destruct Hin as [a [Ht Hin]].
    apply filter_In in Hin. destruct Hin as [Hin Hp].
    rewrite !andb_true_iff, String.eqb_eq, Z.eqb_eq,
      AppointmentStatus_eqb_eq in Hp.
    exists a. tauto.
  - intros [a [Hin [Hp [Hd [Ht Hs]]]]].
    exists slot. split; [|apply String.eqb_refl].
    apply in_map_iff. exists a. split; [exact Ht|].
    apply filter_In. split; [exact Hin|].
    rewrite !andb_true_iff, String.eqb_eq, Z.eqb_eq,
      AppointmentStatus_eqb_eq. tauto.
Qed.

(** C2. [get_available_slots] answers without touching the store; its
    answer holds exactly the labels of the fixed seven-slot list for which
    no SCHEDULED appointment of that date and practitioner has that time, in
    the fixed list's order; with no SCHEDULED appointment for the pair it is
    the whole list. *)
Theorem get_available_slots_spec date psychologist_id w :
  exists available,
    get_available_slots date psychologist_id w = (Return available, w)
    /\ (forall slot,
          In slot available <->
          In slot all_slots
          /\ ~ slot_occupied w psychologist_id date slot)
    /\ Subseq available all_slots
    /\ ((forall a, In a (appointments (db w)) ->
           ~ (Appointment.date a = date
              /\ Appointment.psychologist_id a = psychologist_id
              /\ Appointment.status a = AGENDADO)) ->
        available
        = ["09:00"; "10:00"; "11:00"; "14:00"; "15:00"; "16:00"; "17:00"]).
Proof.
  rewrite get_available_slots_run. eexists. split; [reflexivity|].
  split; [|split].
  - intros slot. rewrite filter_In, negb_true_iff.
    rewrite <- not_true_iff_false, occupied_time. reflexivity.
  - apply filter_Subseq.
  - intros Hnone. apply filter_all. intros slot _.
    rewrite negb_true_iff, <- not_true_iff_false, occupied_time.
    intros [a [Hin [Hp [Hd [_ Hs]]]]]. apply (Hnone a Hin). tauto.
Qed.

(** ** Errors of cancel and update *)

Lemma forbidden_true u a :
  forbidden u a = true <->
  User.type u = PSICOLOGO /\ Appointment.psychologist_id a <> User.id u.
Proof.
  unfold forbidden.
  rewrite andb_true_iff, negb_true_iff, UserType_eqb_eq, Z.eqb_neq.
  reflexivity.
Qed.

(** C5. [cancel_appointment] ends in the 404 error exactly when no stored
    appointment has the given id.  When the id resolves, every caller gets
    the same fixed confirmation message, the resolved row is stored with
    status CANCELED and its other columns as they were, and the caller does
    not enter the outcome at all. *)
Theorem cancel_appointment_not_found_iff k u w :
  (raises HTTP_404_NOT_FOUND (cancel_appointment k u w) <->
   forall a, In a (appointments (db w)) -> Appointment.id a <> k)
  /\ (forall a,
        find (by_id k) (appointments (db w)) = Some a ->
        exists w',
          cancel_appointment k u w
          = (Return [("message", "Agendamento cancelado com sucesso")], w')
          /\ find (by_id k) (appointments (db w'))
             = Some (Appointment.mk (Appointment.id a)
                       (Appointment.patient_id a)
                       (Appointment.psychologist_id a)
                       (Appointment.date a) (Appointment.time a) CANCELADO))
  /\ (forall u' : User.t,
        cancel_appointment k u' w = cancel_appointment k u w).
Proof.
  split; [|split].
  - rewrite cancel_appointment_run, <- find_by_id_None.
    destruct (find (by_id k) (appointments (db w))) as [a|]; simpl.
    + split; [|discriminate].
      intros Hr. exfalso. exact (raises_Return _ _ _ Hr).
    + split; [reflexivity|]. intros _. apply raises_Raise. reflexivity.
  - intros a Hfind. rewrite cancel_appointment_run, Hfind.
    eexists. split; [reflexivity|]. simpl.
    apply find_by_id_Some in Hfind as Hk. destruct Hk as [_ Hk]. subst k.
    apply (find_by_id_written _ (setattr a (F_status CANCELADO)) a).
    exact Hfind.
  - intros u'. rewrite !cancel_appointment_run. reflexivity.
Qed.

(** C6. [update_appointment] ends in the 404 error exactly when no stored
    appointment has the given id.  When the id resolves to an appointment,
    it ends in the 403 error exactly when the caller is a practitioner whose
    id is not the appointment's psychologist_id, and every other caller gets
    the updated appointment back. *)
Theorem update_appointment_errors k data u w :
  (raises HTTP_404_NOT_FOUND (update_appointment k data u w) <->
   forall a, In a (appointments (db w)) -> Appointment.id a <> k)
  /\ (forall a,
        find (by_id k) (appointments (db w)) = Some a ->
        let outsider :=
          User.type u = PSICOLOGO
          /\ Appointment.psychologist_id a <> User.id u in
        (raises HTTP_403_FORBIDDEN (update_appointment k data u w)
         <-> outsider)
        /\ (~ outsider ->
            exists obj w',
              update_appointment k data u w = (Return obj, w'))).
Proof.
  split.
  - rewrite update_appointment_run, <- find_by_id_None.
    destruct (find (by_id k) (appointments (db w))) as [a|]; simpl.
    + split; [|discriminate].
      destruct (forbidden u a); intros Hr.
      * apply raises_Raise in Hr. discriminate.
      * exfalso. exact (raises_Return _ _ _ Hr).
    + split; [reflexivity|]. intros _. apply raises_Raise. reflexivity.
  - intros a Hfind outsider. subst outsider.
    rewrite update_appointment_run, Hfind, <- forbidden_true.
    destruct (forbidden u a); simpl.
    + split.
      * split; [reflexivity|]. intros _. apply raises_Raise. reflexivity.
      * intros Hno. exfalso. apply Hno. reflexivity.
    + split.
      * split; [|discriminate].
        intros Hr. exfalso. exact (raises_Return _ _ _ Hr).
      * intros _. eexists. eexists. reflexivity.
Qed.

(** ** What an update writes *)

(** A successful update found its row, passed the authorization test, and
    stored and returned the row with the payload applied. *)
Lemma update_appointment_success k data u w obj w' :
  update_appointment k data u w = (Return obj, w') ->
  exists a,
    find (by_id k) (appointments (db w)) = Some a
    /\ forbidden u a = false
    /\ obj = apply_update data a
    /\ db w' = mkSession (write_row obj (appointments (db w)))
                 (patients (db w)) (users (db w))
    /\ find (by_id k) (appointments (db w')) = Some obj.
Proof.
  rewrite update_appointment_run.
  destruct (find (by_id k) (appointments (db w))) as [a|] eqn:Hfind;
    [|discriminate].
  destruct (forbidden u a) eqn:Hforb; [discriminate|].
  cbv zeta. intros [= <- <-]. exists a.
  split; [reflexivity|]. split; [exact Hforb|]. split; [reflexivity|].
  split; [reflexivity|]. simpl.
  apply find_by_id_Some in Hfind as Hk. destruct Hk as [_ Hk]. subst k.
  rewrite <- (apply_update_id data a) in Hfind |- *.
  exact (find_by_id_written _ _ _ Hfind).
Qed.

(** C7. A successful update resolves its id to a stored appointment and
    stores and returns that appointment with each column the payload
    provides set to the payload's value and every other column (the id,
    patient_id and psychologist_id always; date, time and status when not
    provided) as it was; rows under other ids, the patients and the users are
    left alone.  So a payload with only a date leaves time and status as
    they were. *)
Theorem update_appointment_frame k data u w obj w' :
  update_appointment k data u w = (Return obj, w') ->
  exists a,
    find (by_id k) (appointments (db w)) = Some a
    /\ find (by_id k) (appointments (db w')) = Some obj
    /\ Appointment.id obj = Appointment.id a
    /\ Appointment.patient_id obj = Appointment.patient_id a
    /\ Appointment.psychologist_id obj = Appointment.psychologist_id a
    /\ Appointment.date obj
       = provided (AppointmentUpdate.date data) (Appointment.date a)
    /\ Appointment.time obj
       = provided (AppointmentUpdate.time data) (Appointment.time a)
    /\ Appointment.status obj
       = provided (AppointmentUpdate.status data) (Appointment.status a)
    /\ (AppointmentUpdate.time data = None ->
        Appointment.time obj = Appointment.time a)
    /\ (AppointmentUpdate.status data = None ->
        Appointment.status obj = Appointment.status a)
    /\ (forall r, In r (appointments (db w)) -> Appointment.id r <> k ->
                  In r (appointments (db w')))
    /\ patients (db w') = patients (db w)
    /\ users (db w') = users (db w).
Proof.
  intros Hrun.
  destruct (update_appointment_success _ _ _ _ _ _ Hrun)
    as [a [Hfind [_ [Hobj [Hdb Hstored]]]]].
  exists a. rewrite Hdb. simpl.
  split; [exact Hfind|]. split; [rewrite Hdb in Hstored; exact Hstored|].
  rewrite Hobj at 1 2 3 4 5 6 7 8. rewrite apply_update_fields. simpl.
  repeat split.
  - intros ->. reflexivity.
  - intros ->. reflexivity.
  - intros r Hin Hr. apply write_row_other; [exact Hin|].
    apply find_by_id_Some in Hfind. destruct Hfind as [_ Hk].
    rewrite Hobj, apply_update_id. congruence.
Qed.

Lemma update_appointment_frame_witness :
  exists a,
    find (by_id 1) (appointments (db clinic)) = Some a
    /\ find (by_id 1)
         (appointments
            (db (snd (update_appointment 1
                        (AppointmentUpdate.mk (Some "2025-03-17") None None)
                        dr_silva clinic))))
       = Some (Appointment.mk 1 1 10 "2025-03-17" "10:00" AGENDADO)
    /\ Appointment.time a = "10:00".
Proof.
  destruct (update_appointment_frame 1
              (AppointmentUpdate.mk (Some "2025-03-17") None None)
              dr_silva clinic
              (Appointment.mk 1 1 10 "2025-03-17" "10:00" AGENDADO)
              (snd (update_appointment 1
                      (AppointmentUpdate.mk (Some "2025-03-17") None None)
                      dr_silva clinic))
              eq_refl)
    as [a [Hpre [Hpost [_ [_ [_ [_ [Htime _]]]]]]]].
  exists a. split; [exact Hpre|]. split; [exact Hpost|].
  simpl in Htime. symmetry. exact Htime.
Defined.

(** ** The rescheduling notice *)


Lemma patient_of_Some s a p :
  patient_of s a = Some p ->
  In p (patients s) /\ Patient.id p = Appointment.patient_id a.
Proof.
  unfold patient_of. intros H. apply find_some in H.
  rewrite Z.eqb_eq in H. exact H.
Qed.

Lemma patient_of_None s a :
  patient_of s a = None ->
  ~ exists p, In p (patients s) /\ Patient.id p = Appointment.patient_id a.
Proof.
  unfold patient_of. intros H [p [Hin Hp]].
  apply (find_none _ _ H) in Hin. apply Z.eqb_neq in Hin. contradiction.
Qed.



(** ** No conflict check on reschedule *)

Lemma clinic_pk_unique : pk_unique clinic.
Proof.
  unfold pk_unique. simpl.
  repeat constructor; simpl; intuition discriminate.
Qed.

Lemma clinic_no_double_booking : no_double_booking clinic.
Proof.
  intros a b Ha Hb. simpl in Ha, Hb.
  destruct Ha as [<-|[<-|[<-|[<-|[]]]]], Hb as [<-|[<-|[<-|[<-|[]]]]];
    simpl; intros; congruence.
Qed.

(** C4. [update_appointment] never ends in the 400 conflict error.  Whenever
    a stored appointment is SCHEDULED and the id resolves to a second
    SCHEDULED appointment of the same practitioner, an authorized update of
    the second one to the first one's date and time succeeds, whatever slot
    the second one had, and the store then holds both, SCHEDULED in the
    same slot.  There is a store with unique keys and no double booking,
    with two appointments at different times, which such an update leaves
    double-booked. *)
Theorem update_appointment_no_conflict_check :
  (forall k data u w,
     ~ raises HTTP_400_BAD_REQUEST (update_appointment k data u w))
  /\ (forall w a b u,
        In a (appointments (db w)) ->
        find (by_id (Appointment.id b)) (appointments (db w)) = Some b ->
        Appointment.id a <> Appointment.id b ->
        Appointment.status a = AGENDADO ->
        Appointment.status b = AGENDADO ->
        Appointment.psychologist_id b = Appointment.psychologist_id a ->
        ~ (User.type u = PSICOLOGO
           /\ Appointment.psychologist_id b <> User.id u) ->
        exists obj w',
          update_appointment (Appointment.id b)
            (AppointmentUpdate.mk (Some (Appointment.date a))
               (Some (Appointment.time a)) None) u w
          = (Return obj, w')
          /\ Appointment.id obj = Appointment.id b
          /\ In a (appointments (db w'))
          /\ find (by_id (Appointment.id b)) (appointments (db w'))
             = Some obj
          /\ scheduled_at (Appointment.psychologist_id a)
               (Appointment.date a) (Appointment.time a) a
          /\ scheduled_at (Appointment.psychologist_id a)
               (Appointment.date a) (Appointment.time a) obj)
  /\ exists w a b u,
       pk_unique w
       /\ no_double_booking w
       /\ In a (appointments (db w))
       /\ In b (appointments (db w))
       /\ Appointment.id a <> Appointment.id b
       /\ Appointment.status a = AGENDADO
       /\ Appointment.status b = AGENDADO
       /\ Appointment.psychologist_id b = Appointment.psychologist_id a
       /\ Appointment.date b = Appointment.date a
       /\ Appointment.time b <> Appointment.time a
       /\ (exists obj,
             fst (update_appointment (Appointment.id b)
                    (AppointmentUpdate.mk (Some (Appointment.date a))
                       (Some (Appointment.time a)) None) u w)
             = Return obj)
       /\ ~ no_double_booking
             (snd (update_appointment (Appointment.id b)
                     (AppointmentUpdate.mk (Some (Appointment.date a))
                        (Some (Appointment.time a)) None) u w)).
Proof.
  split; [|split].
  - intros k data u w. rewrite update_appointment_run.
    destruct (find (by_id k) (appointments (db w))) as [a|].
    + destruct (forbidden u a).
      * rewrite raises_Raise. discriminate.
      * apply raises_Return.
    + rewrite raises_Raise. discriminate.
  - intros w a b u Ha Hb Hid Hsa Hsb Hpsy Hauth.
    rewrite update_appointment_run, Hb.
    destruct (forbidden u b) eqn:Hforb;
      [exfalso; apply Hauth, forbidden_true; exact Hforb|].
    cbv zeta. eexists. eexists. split; [reflexivity|].
    rewrite apply_update_fields. cbn [provided AppointmentUpdate.date
      AppointmentUpdate.time AppointmentUpdate.status db appointments].
    split; [reflexivity|]. split; [|split; [|split]].
    + apply write_row_other; [exact Ha|]. simpl. exact Hid.
    + apply (find_by_id_written (appointments (db w))
               (Appointment.mk (Appointment.id b) (Appointment.patient_id b)
                  (Appointment.psychologist_id b) (Appointment.date a)
                  (Appointment.time a) (Appointment.status b)) b).
      exact Hb.
    + unfold scheduled_at. tauto.
    + unfold scheduled_at. simpl. tauto.
  - exists clinic,
      (Appointment.mk 1 1 10 "2025-03-10" "10:00" AGENDADO),
      (Appointment.mk 2 1 10 "2025-03-10" "15:00" AGENDADO),
      ana_user.
    split; [exact clinic_pk_unique|].
    split; [exact clinic_no_double_booking|].
    split; [simpl; tauto|]. split; [simpl; tauto|].
    split; [discriminate|]. split; [reflexivity|]. split; [reflexivity|].
    split; [reflexivity|]. split; [reflexivity|]. split; [discriminate|].
    split; [eexists; reflexivity|].
    intros Hdouble.
    specialize (Hdouble
                  (Appointment.mk 1 1 10 "2025-03-10" "10:00" AGENDADO)
                  (Appointment.mk 2 1 10 "2025-03-10" "10:00" AGENDADO)).
    simpl in Hdouble.
    assert (Habs : 1 = 2) by (apply Hdouble; tauto).
    discriminate.
Qed.

(** ** Primary keys stay unique *)

Lemma write_row_ids obj rows :
  map Appointment.id (write_row obj rows) = map Appointment.id rows.
Proof.
  induction rows as [|x rows IH]; simpl; [reflexivity|].
  destruct (Z.eqb_spec (Appointment.id x) (Appointment.id obj)); simpl;
    congruence.
Qed.

Lemma NoDup_snoc {A} (l : list A) x :
  NoDup l -> ~ In x l -> NoDup (l ++ [x]).
Proof.
  induction 1 as [|y l Hy Hl IH]; simpl; intros Hx.
  - constructor; [tauto | constructor].
  - constructor.
    + rewrite in_app_iff. simpl. intros [H|[H|[]]]; [tauto|].
      apply Hx. left. symmetry. exact H.
    + apply IH. tauto.
Qed.

Lemma handle_pk_unique w rq : pk_unique w -> pk_unique (handle w rq).
Proof.
  unfold pk_unique. intros Hw. destruct rq as [data u|k data u|k u]; simpl.
  - rewrite create_appointment_run.
    destruct (find _ (appointments (db w))); simpl; [exact Hw|].
    rewrite map_app. simpl. apply NoDup_snoc; [exact Hw|].
    intros Hin. apply in_map_iff in Hin. destruct Hin as [r [Hr Hin]].
    apply autoincrement_above in Hin. lia.
  - rewrite update_appointment_run.
    destruct (find _ (appointments (db w))) as [a|]; simpl; [|exact Hw].
    destruct (forbidden u a); simpl; [exact Hw|].
    rewrite write_row_ids. exact Hw.
  - rewrite cancel_appointment_run.
    destruct (find _ (appointments (db w))) as [a|]; simpl; [|exact Hw].
    rewrite write_row_ids. exact Hw.
Qed.

(** Every store reached from one with unique keys has unique keys; the
    empty store is one. *)
Lemma serve_pk_unique requests w :
  pk_unique w -> pk_unique (serve requests w).
Proof.
  unfold serve. revert w.
  induction requests as [|rq requests IH]; simpl; intros w Hw; [exact Hw|].
  apply IH, handle_pk_unique, Hw.
Qed.

Lemma find_by_id_In rows a :
  NoDup (map Appointment.id rows) -> In a rows ->
  find (by_id (Appointment.id a)) rows = Some a.
Proof.
  induction rows as [|x rows IH]; simpl; [tauto|].
  intros Hnd Hin. inversion Hnd as [|? ? Hx Hrows]; subst.
  unfold by_id at 1.
  destruct (Z.eqb_spec (Appointment.id x) (Appointment.id a)) as [Hk|Hk].
  - destruct Hin as [->|Hin]; [reflexivity|].
    exfalso. apply Hx. rewrite Hk. apply in_map. exact Hin.
  - destruct Hin as [->|Hin]; [congruence|]. apply IH; assumption.
Qed.

Lemma write_row_In_unique obj rows r :
  NoDup (map Appointment.id rows) ->
  In r (write_row obj rows) ->
  r = obj \/ (In r rows /\ Appointment.id r <> Appointment.id obj).
Proof.
  induction rows as [|x rows IH]; simpl; [tauto|].
  intros Hnd. inversion Hnd as [|? ? Hx Hrows]; subst.
  destruct (Z.eqb_spec (Appointment.id x) (Appointment.id obj)) as [Hk|Hk];
    simpl.
  - intros [<-|Hin]; [left; reflexivity|].
    right. split; [right; exact Hin|].
    intros Hr. apply Hx. rewrite Hk, <- Hr. apply in_map. exact Hin.
  - intros [<-|Hin]; [right; split; [left; reflexivity | exact Hk]|].
    destruct (IH Hrows Hin) as [->|[Hin' Hr]]; [left; reflexivity|].
    right. split; [right; exact Hin' | exact Hr].
Qed.

(** ** The status over a session *)

Lemma find_by_id_write_row k obj rows :
  find (by_id k) (write_row obj rows) =
  match find (by_id k) rows with
  | Some r => if Appointment.id obj =? k then Some obj else Some r
  | None => None
  end.
Proof.
  induction rows as [|x rows IH]; simpl; [reflexivity|].
  destruct (Z.eqb_spec (Appointment.id x) (Appointment.id obj)) as [Hx|Hx];
    simpl; unfold by_id at 1 3.
  - rewrite Hx.
    destruct (Z.eqb_spec (Appointment.id obj) k); [reflexivity|].
    destruct (find (by_id k) rows); reflexivity.
  - destruct (Z.eqb_spec (Appointment.id x) k) as [Hk|Hk].
    + destruct (Z.eqb_spec (Appointment.id obj) k); [congruence|reflexivity].
    + exact IH.
Qed.

Lemma find_app_Some {A} (p : A -> bool) l m a :
  find p l = Some a -> find p (l ++ m) = Some a.
Proof.
  induction l as [|x l IH]; simpl; [discriminate|].
  destruct (p x); [tauto | exact IH].
Qed.

(** One request on a CANCELED appointment: it stays stored under its id, and
    it is SCHEDULED afterwards if the request reopens it and CANCELED
    otherwise. *)
Lemma handle_canceled w rq k a :
  find (by_id k) (appointments (db w)) = Some a ->
  Appointment.status a = CANCELADO ->
  exists a',
    find (by_id k) (appointments (db (handle w rq))) = Some a'
    /\ ((reopens k w rq /\ Appointment.status a' = AGENDADO)
        \/ (~ reopens k w rq /\ Appointment.status a' = CANCELADO)).
Proof.
  intros Hfind Hst.
  destruct rq as [data u|k0 data u|k0 u]; simpl.
  - rewrite create_appointment_run.
    destruct (find (slot_taken _ _ _) (appointments (db w))); simpl.
    + exists a. split; [exact Hfind|]. right. tauto.
    + exists a. split; [apply find_app_Some; exact Hfind|]. right. tauto.
  - rewrite update_appointment_run.
    destruct (find (by_id k0) (appointments (db w))) as [b|] eqn:Hb.
    + destruct (forbidden u b) eqn:Hforb.
      * exists a. split; [exact Hfind|]. right. split; [|exact Hst].
        intros [_ [_ [obj [w' Hrun]]]]. discriminate.
      * cbn [snd db appointments].
        rewrite find_by_id_write_row, Hfind, apply_update_id.
        apply find_by_id_Some in Hb as Hk0. destruct Hk0 as [_ Hk0].
        destruct (Z.eqb_spec (Appointment.id b) k) as [Hk|Hk].
        -- assert (b = a) by congruence. subst b.
           eexists. split; [reflexivity|].
           rewrite apply_update_fields. simpl. rewrite Hst.
           destruct (AppointmentUpdate.status data) as [[|]|] eqn:Hs; simpl.
           ++ left. split; [|reflexivity].
              split; [congruence|]. split; [reflexivity|].
              eexists. eexists. reflexivity.
           ++ right. split; [|reflexivity]. intros [_ [Habs _]]. discriminate.
           ++ right. split; [|reflexivity]. intros [_ [Habs _]]. discriminate.
        -- exists a. split; [reflexivity|]. right. split; [|exact Hst].
           intros [Habs _]. congruence.
    + exists a. split; [exact Hfind|]. right. split; [|exact Hst].
      intros [_ [_ [obj [w' Hrun]]]]. discriminate.
  - rewrite cancel_appointment_run.
    destruct (find (by_id k0) (appointments (db w))) as [b|] eqn:Hb; simpl;
      [|exists a; split; [exact Hfind|]; right; tauto].
    rewrite find_by_id_write_row, Hfind. simpl.
    destruct (Appointment.id b =? k); eexists; (split; [reflexivity|]);
      right; simpl; tauto.
Qed.

(** C3 (as the code has it). A created appointment is SCHEDULED.  A CANCELED
    appointment stays stored under its id; one request turns it SCHEDULED
    exactly when the request is a successful update of that very
    appointment whose payload provides the status SCHEDULED, and leaves it
    CANCELED otherwise; over a sequence of create, update and cancel
    requests none of which does so on the store it meets, the appointment
    is CANCELED at the end. *)
Theorem status_stays_canceled requests w k a :
  find (by_id k) (appointments (db w)) = Some a ->
  Appointment.status a = CANCELADO ->
  (forall data u w0 obj w1,
     create_appointment data u w0 = (Return obj, w1) ->
     Appointment.status obj = AGENDADO
     /\ find (by_id (Appointment.id obj)) (appointments (db w1)) = Some obj)
  /\ (forall rq,
        exists a',
          find (by_id k) (appointments (db (handle w rq))) = Some a'
          /\ (Appointment.status a' = AGENDADO <-> reopens k w rq)
          /\ (Appointment.status a' = CANCELADO <-> ~ reopens k w rq))
  /\ (~ reopened k requests w ->
      exists a',
        find (by_id k) (appointments (db (serve requests w))) = Some a'
        /\ Appointment.status a' = CANCELADO).
Proof.
  intros Hfind Hst. split; [|split].
  - intros data u w0 obj w1. rewrite create_appointment_run.
    destruct (find _ (appointments (db w0))); [discriminate|].
    cbv zeta. intros [= <- <-]. split; [reflexivity|]. simpl.
    change (autoincrement (appointments (db w0)))
      with (Appointment.id (new_row data (appointments (db w0)))).
    apply find_by_id_inserted. reflexivity.
  - intros rq.
    destruct (handle_canceled w rq k a Hfind Hst)
      as [a' [Hfind' [[Hre Hst']|[Hre Hst']]]];
      exists a'; (split; [exact Hfind'|]); rewrite Hst'; split; split;
      try tauto; try discriminate.
  - unfold serve. revert w a Hfind Hst.
    induction requests as [|rq requests IH]; simpl; intros w a Hfind Hst Hno.
    + exists a. tauto.
    + destruct (handle_canceled w rq k a Hfind Hst)
        as [a1 [Hfind1 [[Hre _]|[_ Hst1]]]]; [tauto|].
      apply (IH (handle w rq) a1 Hfind1 Hst1). tauto.
Qed.

Lemma status_stays_canceled_witness :
  exists a',
    find (by_id 3)
      (appointments
         (db (serve
                [Update 1 (AppointmentUpdate.mk None None (Some AGENDADO))
                   ana_user;
                 Update 3 (AppointmentUpdate.mk None None (Some AGENDADO))
                   dr_costa;
                 Update 3 (AppointmentUpdate.mk (Some "2025-03-13") None None)
                   dr_silva;
                 Cancel 3 dr_costa]
                clinic)))
    = Some a'
    /\ Appointment.status a' = CANCELADO.
Proof.
  refine (proj2 (proj2 (status_stays_canceled _ clinic 3
                          (Appointment.mk 3 1 10 "2025-03-11" "09:00"
                             CANCELADO)
                          eq_refl eq_refl)) _).
  simpl. intros [[Habs _]|[[_ [_ [obj [w' Hrun]]]]|[[_ [Habs _]]|[[]|[]]]]];
    discriminate.
Defined.

(** C3 (as stated) fails: an update whose payload provides the status
    SCHEDULED succeeds on a CANCELED appointment and stores it as
    SCHEDULED again. *)
Lemma status_reverts_counterexample :
  find (by_id 3) (appointments (db clinic))
  = Some (Appointment.mk 3 1 10 "2025-03-11" "09:00" CANCELADO)
  /\ fst (update_appointment 3
            (AppointmentUpdate.mk None None (Some AGENDADO)) ana_user clinic)
     = Return (Appointment.mk 3 1 10 "2025-03-11" "09:00" AGENDADO)
  /\ find (by_id 3)
       (appointments
          (db (serve
                 [Update 3 (AppointmentUpdate.mk None None (Some AGENDADO))
                    ana_user]
                 clinic)))
     = Some (Appointment.mk 3 1 10 "2025-03-11" "09:00" AGENDADO).
Proof. repeat split. Qed.

(** ** Cancellation frees the slot *)

Lemma canceled_row_gone w a b :
  pk_unique w ->
  In b (write_row (setattr a (F_status CANCELADO)) (appointments (db w))) ->
  Appointment.status b = AGENDADO ->
  In b (appointments (db w)) /\ Appointment.id b <> Appointment.id a.
Proof.
  intros Hpk Hin Hst.
  destruct (write_row_In_unique _ _ _ Hpk Hin) as [->|H].
  - simpl in Hst. discriminate.
  - exact H.
Qed.

(** Requests that keep to the data model keep the store in it. *)
Lemma serve_slot_times requests w :
  (forall rq, In rq requests -> labelled rq) ->
  slot_times w -> slot_times (serve requests w).
Proof.
  unfold serve. revert w.
  induction requests as [|rq requests IH]; simpl; intros w Hreq Hw;
    [exact Hw|].
  apply IH; [intros rq' Hin; apply Hreq; right; exact Hin|].
  assert (Hrq : labelled rq) by (apply Hreq; left; reflexivity).
  unfold slot_times in *.
  destruct rq as [data u|k data u|k u]; simpl in *.
  - rewrite create_appointment_run.
    destruct (find _ (appointments (db w))); simpl; [exact Hw|].
    intros r Hr. apply in_app_or in Hr.
    destruct Hr as [Hr|[<-|[]]]; [exact (Hw r Hr) | exact Hrq].
  - rewrite update_appointment_run.
    destruct (find (by_id k) (appointments (db w))) as [a|] eqn:Hfind;
      simpl; [|exact Hw].
    destruct (forbidden u a); simpl; [exact Hw|].
    intros r Hr. apply write_row_In in Hr.
    destruct Hr as [Hr| ->]; [exact (Hw r Hr)|].
    rewrite apply_update_fields. simpl.
    apply find_by_id_Some in Hfind. destruct Hfind as [Ha _].
    destruct (AppointmentUpdate.time data) as [t|]; simpl;
      [apply Hrq; reflexivity | exact (Hw a Ha)].
  - rewrite cancel_appointment_run.
    destruct (find (by_id k) (appointments (db w))) as [a|] eqn:Hfind;
      simpl; [|exact Hw].
    intros r Hr. apply write_row_In in Hr.
    destruct Hr as [Hr| ->]; [exact (Hw r Hr)|].
    simpl. apply find_by_id_Some in Hfind. destruct Hfind as [Ha _].
    exact (Hw a Ha).
Qed.

(** C9. In a store of the data model (unique primary keys, every time a
    slot label), cancel succeeds on every stored SCHEDULED appointment.
    After it, a create for the appointment's practitioner, date and time
    that is rejected with the 400 conflict error is rejected because of
    another stored appointment, never because of the canceled one.  If no
    other SCHEDULED appointment holds that slot, the appointment's time is
    in the available-slots answer for its date and practitioner, and every
    such create succeeds. *)
Theorem cancel_frees_slot w a u :
  pk_unique w ->
  slot_times w ->
  In a (appointments (db w)) ->
  Appointment.status a = AGENDADO ->
  exists w',
    cancel_appointment (Appointment.id a) u w
    = (Return [("message", "Agendamento cancelado com sucesso")], w')
    /\ (forall patient_id u2,
          raises HTTP_400_BAD_REQUEST
            (create_appointment
               (AppointmentCreate.mk patient_id
                  (Appointment.psychologist_id a) (Appointment.date a)
                  (Appointment.time a)) u2 w') ->
          exists b,
            In b (appointments (db w))
            /\ Appointment.id b <> Appointment.id a
            /\ scheduled_at (Appointment.psychologist_id a)
                 (Appointment.date a) (Appointment.time a) b)
    /\ ((forall b,
           In b (appointments (db w)) ->
           Appointment.id b <> Appointment.id a ->
           ~ scheduled_at (Appointment.psychologist_id a)
               (Appointment.date a) (Appointment.time a) b) ->
        (exists slots,
           get_available_slots (Appointment.date a)
             (Appointment.psychologist_id a) w' = (Return slots, w')
           /\ In (Appointment.time a) slots)
        /\ (forall patient_id u2,
              exists obj w'',
                create_appointment
                  (AppointmentCreate.mk patient_id
                     (Appointment.psychologist_id a) (Appointment.date a)
                     (Appointment.time a)) u2 w' = (Return obj, w''))).
Proof.
  intros Hpk Hmodel Hin Hst.
  pose proof (Hmodel a Hin) as Hlabel.
  pose proof (find_by_id_In _ _ Hpk Hin) as Hfind.
  rewrite cancel_appointment_run, Hfind. cbv zeta.
  eexists. split; [reflexivity|].
  assert (Hgone : forall b,
            In b (write_row (setattr a (F_status CANCELADO))
                    (appointments (db w))) ->
            scheduled_at (Appointment.psychologist_id a)
              (Appointment.date a) (Appointment.time a) b ->
            In b (appointments (db w))
            /\ Appointment.id b <> Appointment.id a).
  { intros b Hb [_ [_ [_ Hs]]]. exact (canceled_row_gone w a b Hpk Hb Hs). }
  split.
  - intros pid u2. rewrite create_appointment_run. cbn [db appointments
      AppointmentCreate.psychologist_id AppointmentCreate.date
      AppointmentCreate.time].
    destruct (find _ (write_row _ _)) as [b|] eqn:Hb.
    + intros _. apply find_some in Hb. rewrite slot_taken_true in Hb.
      destruct Hb as [Hb Hs]. fold (scheduled_at (Appointment.psychologist_id a)
        (Appointment.date a) (Appointment.time a) b) in Hs.
      exists b. destruct (Hgone b Hb Hs). tauto.
    + intros Hr. exfalso. exact (raises_Return _ _ _ Hr).
  - intros Hfree.
    assert (Hnone : ~ exists b,
              In b (write_row (setattr a (F_status CANCELADO))
                      (appointments (db w)))
              /\ scheduled_at (Appointment.psychologist_id a)
                   (Appointment.date a) (Appointment.time a) b).
    { intros [b [Hb Hs]]. destruct (Hgone b Hb Hs) as [Hb' Hid].
      exact (Hfree b Hb' Hid Hs). }
    split.
    + rewrite get_available_slots_run. eexists. split; [reflexivity|].
      apply filter_In. split; [exact Hlabel|].
      rewrite negb_true_iff, <- not_true_iff_false, occupied_time.
      exact Hnone.
    + intros pid u2. rewrite create_appointment_run. cbn [db appointments
        AppointmentCreate.psychologist_id AppointmentCreate.date
        AppointmentCreate.time].
      apply find_slot_taken_None in Hnone. rewrite Hnone.
      eexists. eexists. reflexivity.
Qed.

Lemma clinic_slot_times : slot_times clinic.
Proof.
  intros r Hr. simpl in Hr.
  destruct Hr as [<-|[<-|[<-|[<-|[]]]]]; simpl; tauto.
Qed.

Lemma cancel_frees_slot_witness :
  exists w',
    cancel_appointment 1 dr_costa clinic
    = (Return [("message", "Agendamento cancelado com sucesso")], w')
    /\ exists slots,
         get_available_slots "2025-03-10" 10 w' = (Return slots, w')
         /\ In "10:00" slots.
Proof.
  destruct (cancel_frees_slot clinic
              (Appointment.mk 1 1 10 "2025-03-10" "10:00" AGENDADO) dr_costa)
    as [w' [Hrun [_ Hfree]]].
  - exact clinic_pk_unique.
  - exact clinic_slot_times.
  - simpl. tauto.
  - reflexivity.
  - exists w'. split; [exact Hrun|].
    destruct Hfree as [[slots [Hslots Hin]] _].
    + simpl. unfold scheduled_at.
      intros b [<-|[<-|[<-|[<-|[]]]]] Hid [_ [_ [Ht Hs]]]; simpl in *;
        congruence.
    + exists slots. split; [exact Hslots | exact Hin].
Defined.

(** ** The handler monad *)

Lemma bind_ret_l {A B} (a : A) (k : A -> M B) w : bind (ret a) k w = k a w.
Proof. reflexivity. Qed.

Lemma bind_ret_r {A} (c : M A) w : bind c ret w = c w.
Proof. unfold bind, ret. destruct (c w) as [[a|e] w']; reflexivity. Qed.

Lemma bind_assoc {A B C} (c : M A) (k : A -> M B) (h : B -> M C) w :
  bind (bind c k) h w = bind c (fun a => bind (k a) h) w.
Proof. unfold bind. destruct (c w) as [[a|e] w']; reflexivity. Qed.

Lemma bind_raise {A B} e (k : A -> M B) w : bind (raise e) k w = (Raise e, w).
Proof. reflexivity. Qed.

(** ** Worked examples *)

Example clinic_slots_10_march :
  get_available_slots "2025-03-10" 10 clinic
  = (Return ["09:00"; "11:00"; "14:00"; "16:00"; "17:00"], clinic).
Proof. reflexivity. Qed.

Example clinic_slots_11_march :
  fst (get_available_slots "2025-03-11" 10 clinic) = Return all_slots.
Proof. reflexivity. Qed.

Example clinic_create_taken :
  create_appointment (AppointmentCreate.mk 7 10 "2025-03-10" "15:00")
    dr_costa clinic
  = (Raise (HTTPException 400 "Horário não disponível"), clinic).
Proof. reflexivity. Qed.

Example clinic_create_free :
  create_appointment (AppointmentCreate.mk 1 11 "2025-03-10" "15:00")
    ana_user clinic
  = (Return (Appointment.mk 5 1 11 "2025-03-10" "15:00" AGENDADO),
     mkWorld
       (mkSession
          (appointments (db clinic)
           ++ [Appointment.mk 5 1 11 "2025-03-10" "15:00" AGENDADO])
          [ana] [dr_silva; dr_costa; ana_user])
       [EmailAppointment "ana@example.com" "Ana" "2025-03-10" "15:00"]).
Proof. reflexivity. Qed.

Example clinic_update_forbidden :
  fst (update_appointment 1 (AppointmentUpdate.mk None (Some "16:00") None)
         dr_costa clinic)
  = Raise (HTTPException 403 "Sem permissão para alterar este agendamento").
Proof. reflexivity. Qed.

Example clinic_update_unknown_patient :
  update_appointment 4 (AppointmentUpdate.mk None (Some "16:00") None)
    dr_silva clinic
  = (Return (Appointment.mk 4 7 10 "2025-03-12" "16:00" AGENDADO),
     mkWorld
       (mkSession
          [Appointment.mk 1 1 10 "2025-03-10" "10:00" AGENDADO;
           Appointment.mk 2 1 10 "2025-03-10" "15:00" AGENDADO;
           Appointment.mk 3 1 10 "2025-03-11" "09:00" CANCELADO;
           Appointment.mk 4 7 10 "2025-03-12" "16:00" AGENDADO]
          [ana] [dr_silva; dr_costa; ana_user])
       []).
Proof. reflexivity. Qed.

Example clinic_cancel_by_other_practitioner :
  cancel_appointment 2 dr_costa clinic
  = (Return [("message", "Agendamento cancelado com sucesso")],
     mkWorld
       (mkSession
          [Appointment.mk 1 1 10 "2025-03-10" "10:00" AGENDADO;
           Appointment.mk 2 1 10 "2025-03-10" "15:00" CANCELADO;
           Appointment.mk 3 1 10 "2025-03-11" "09:00" CANCELADO;
           Appointment.mk 4 7 10 "2025-03-12" "11:00" AGENDADO]
          [ana] [dr_silva; dr_costa; ana_user])
       [EmailAppointmentCanceled "ana@example.com" "Ana" "Dra. Silva"]).
Proof. reflexivity. Qed.

Example clinic_cancel_missing :
  cancel_appointment 9 ana_user clinic
  = (Raise (HTTPException 404 "Agendamento não encontrado"), clinic).
Proof. reflexivity. Qed.

(** ** Listing *)

(** X1. A practitioner is shown exactly the stored appointments assigned to
    them, whatever their status, in the order of the table; listing leaves
    the store and the outbox alone. *)
Theorem get_appointments_practitioner_own u w :
  User.type u = PSICOLOGO ->
  exists rows,
    get_appointments u w = (Return rows, w)
    /\ (forall a, In a rows <->
                  In a (appointments (db w))
                  /\ Appointment.psychologist_id a = User.id u)
    /\ Subseq rows (appointments (db w)).
Proof.
  intros Hty. unfold get_appointments. rewrite Hty. simpl.
  unfold query_all. eexists. split; [reflexivity|]. split.
  - intros a. rewrite filter_In, Z.eqb_eq. reflexivity.
  - apply filter_Subseq.
Qed.

Lemma get_appointments_practitioner_own_witness :
  exists rows,
    get_appointments dr_silva clinic = (Return rows, clinic)
    /\ List.length rows = 4%nat.
Proof.
  destruct (get_appointments_practitioner_own dr_silva clinic eq_refl)
    as [rows [Hrun _]].
  exists rows. split; [exact Hrun|].
  vm_compute in Hrun. injection Hrun as <-. reflexivity.
Defined.

(** X2. A caller who is not a practitioner is matched to the first Patient
    record that carries the caller's e-mail address.  With no such record
    the answer is the empty list, not an error; otherwise it is exactly the
    stored appointments of that patient, in the order of the table.  The
    caller's own id plays no part. *)
Theorem get_appointments_patient_by_email u w :
  User.type u <> PSICOLOGO ->
  exists rows,
    get_appointments u w = (Return rows, w)
    /\ ((forall p, In p (patients (db w)) ->
                   Patient.email p <> User.email u) ->
        rows = [])
    /\ (forall p,
          find (by_email u) (patients (db w)) = Some p ->
          Patient.email p = User.email u
          /\ (forall a, In a rows <->
                        In a (appointments (db w))
                        /\ Appointment.patient_id a = Patient.id p)
          /\ Subseq rows (appointments (db w))).
Proof.
  intros Hty. unfold get_appointments.
  destruct (UserType_eqb (User.type u) PSICOLOGO) eqn:Heq;
    [apply UserType_eqb_eq in Heq; contradiction|].
  run_handler. fold (by_email u).
  destruct (find (by_email u) (patients (db w))) as [p|] eqn:Hfind.
  - eexists. split; [reflexivity|]. split.
    + intros Hnone. exfalso. apply find_some in Hfind.
      destruct Hfind as [Hin Hp]. apply String.eqb_eq in Hp.
      exact (Hnone p Hin Hp).
    + intros p' [= <-]. apply find_some in Hfind as Hp.
      destruct Hp as [_ Hp]. apply String.eqb_eq in Hp.
      split; [exact Hp|]. split.
      * intros a. rewrite filter_In, Z.eqb_eq. reflexivity.
      * apply filter_Subseq.
  - exists []. split; [reflexivity|]. split; [reflexivity|]. discriminate.
Qed.

Lemma get_appointments_patient_by_email_witness :
  exists rows,
    get_appointments ana_user clinic = (Return rows, clinic)
    /\ List.length rows = 3%nat.
Proof.
  destruct (get_appointments_patient_by_email ana_user clinic)
    as [rows [Hrun _]].
  - discriminate.
  - exists rows. split; [exact Hrun|].
    vm_compute in Hrun. injection Hrun as <-. reflexivity.
Defined.

(** ** The notices of create and cancel *)

Lemma psychologist_of_Some s a v :
  psychologist_of s a = Some v ->
  In v (users s) /\ User.id v = Appointment.psychologist_id a.
Proof.
  unfold psychologist_of. intros H. apply find_some in H.
  rewrite Z.eqb_eq in H. exact H.
Qed.

Lemma psychologist_of_None s a :
  psychologist_of s a = None ->
  ~ exists v, In v (users s) /\ User.id v = Appointment.psychologist_id a.
Proof.
  unfold psychologist_of. intros H [v [Hin Hv]].
  apply (find_none _ _ H) in Hin. apply Z.eqb_neq in Hin. contradiction.
Qed.

(** X3. A successful create hands the mail service one "new appointment"
    notice, with the payload's date and time and addressed to the first
    Patient record under the payload's patient_id, exactly when the store
    has such a record; when it has none the create succeeds all the same
    and nothing is sent. *)
Theorem create_appointment_notification data u w obj w' :
  create_appointment data u w = (Return obj, w') ->
  exists mails,
    outbox w' = (outbox w ++ mails)%list
    /\ let known :=
         exists p, In p (patients (db w))
                   /\ Patient.id p = AppointmentCreate.patient_id data in
       ((exists p, In p (patients (db w))
                   /\ Patient.id p = AppointmentCreate.patient_id data
                   /\ mails = [EmailAppointment
                                 (Patient.email p) (Patient.name p)
                                 (AppointmentCreate.date data)
                                 (AppointmentCreate.time data)])
        <-> known)
       /\ (mails = [] <-> ~ known).
Proof.
  rewrite create_appointment_run.
  destruct (find _ (appointments (db w))); [discriminate|].
  cbv zeta. intros [= <- <-].
  exists (created_mail (db w) (new_row data (appointments (db w)))).
  split; [reflexivity|].
  unfold created_mail.
  destruct (patient_of (db w) (new_row data (appointments (db w))))
    as [p|] eqn:Hp.
  - apply patient_of_Some in Hp. simpl in Hp. destruct Hp as [Hin Hid].
    split; split.
    + intros _. exists p. tauto.
    + intros _. exists p. tauto.
    + discriminate.
    + intros Hno. exfalso. apply Hno. exists p. tauto.
  - apply patient_of_None in Hp. simpl in Hp.
    split; split.
    + intros [p [_ [_ Habs]]]. discriminate.
    + intros Hknown. contradiction.
    + intros _. exact Hp.
    + reflexivity.
Qed.

Lemma create_appointment_notification_witness :
  exists mails,
    outbox (snd (create_appointment
                   (AppointmentCreate.mk 1 11 "2025-03-10" "15:00")
                   ana_user clinic))
    = (outbox clinic ++ mails)%list.
Proof.
  destruct (create_appointment_notification
              (AppointmentCreate.mk 1 11 "2025-03-10" "15:00")
              ana_user clinic
              (Appointment.mk 5 1 11 "2025-03-10" "15:00" AGENDADO)
              (snd (create_appointment
                      (AppointmentCreate.mk 1 11 "2025-03-10" "15:00")
                      ana_user clinic))
              eq_refl)
    as [mails [Hout _]].
  exists mails. exact Hout.
Defined.

(** X4. A cancel whose id resolves succeeds and hands the mail service one
    "canceled" notice exactly when the store has both a Patient record under
    the appointment's patient_id and a User record, of any type, under its
    psychologist_id; the notice carries the patient's address and name and
    that user's name.  If either record is missing nothing is sent. *)
Theorem cancel_appointment_notification k u w a :
  find (by_id k) (appointments (db w)) = Some a ->
  exists w' mails,
    cancel_appointment k u w
    = (Return [("message", "Agendamento cancelado com sucesso")], w')
    /\ outbox w' = (outbox w ++ mails)%list
    /\ let known :=
         (exists p, In p (patients (db w))
                    /\ Patient.id p = Appointment.patient_id a)
         /\ (exists v, In v (users (db w))
                       /\ User.id v = Appointment.psychologist_id a) in
       ((exists p v,
           In p (patients (db w))
           /\ Patient.id p = Appointment.patient_id a
           /\ In v (users (db w))
           /\ User.id v = Appointment.psychologist_id a
           /\ mails = [EmailAppointmentCanceled
                         (Patient.email p) (Patient.name p) (User.name v)])
        <-> known)
       /\ (mails = [] <-> ~ known).
Proof.
  intros Hfind. rewrite cancel_appointment_run, Hfind. cbv zeta.
  eexists. exists (canceled_mail (db w) (setattr a (F_status CANCELADO))).
  split; [reflexivity|]. split; [reflexivity|].
  unfold canceled_mail.
  destruct (patient_of (db w) (setattr a (F_status CANCELADO)))
    as [p|] eqn:Hp.
  - apply patient_of_Some in Hp. simpl in Hp. destruct Hp as [Hin Hid].
    destruct (psychologist_of (db w) (setattr a (F_status CANCELADO)))
      as [v|] eqn:Hv.
    + apply psychologist_of_Some in Hv. simpl in Hv.
      destruct Hv as [Hvin Hvid].
      assert (Hknown :
                (exists p, In p (patients (db w))
                           /\ Patient.id p = Appointment.patient_id a)
                /\ (exists v, In v (users (db w))
                              /\ User.id v = Appointment.psychologist_id a)).
      { split; [exists p | exists v]; tauto. }
      split; split.
      * intros _. exact Hknown.
      * intros _. exists p, v. tauto.
      * discriminate.
      * intros Hno. contradiction.
    + apply psychologist_of_None in Hv. simpl in Hv.
      split; split.
      * intros [p' [v [_ [_ [_ [_ Habs]]]]]]. discriminate.
      * intros [_ Hknown]. contradiction.
      * intros _ [_ Hknown]. contradiction.
      * reflexivity.
  - apply patient_of_None in Hp. simpl in Hp.
    split; split.
    + intros [p' [v [_ [_ [_ [_ Habs]]]]]]. discriminate.
    + intros [Hknown _]. contradiction.
    + intros _ [Hknown _]. contradiction.
    + reflexivity.
Qed.

Lemma cancel_appointment_notification_witness :
  exists w' mails,
    cancel_appointment 4 ana_user clinic
    = (Return [("message", "Agendamento cancelado com sucesso")], w')
    /\ outbox w' = (outbox clinic ++ mails)%list.
Proof.
  destruct (cancel_appointment_notification 4 ana_user clinic
              (Appointment.mk 4 7 10 "2025-03-12" "11:00" AGENDADO) eq_refl)
    as [w' [mails [Hrun [Hout _]]]].
  exists w', mails. split; [exact Hrun | exact Hout].
Defined.

(** ** Error exits *)

(** X5. Every error exit of the router is taken before anything is written
    or sent: when create finds the slot taken (400), when update or cancel
    find no appointment under the id (404), and when the caller of update
    is a practitioner other than the appointment's (403), the handler ends
    in that error with the store and the outbox exactly as they were. *)
Theorem error_exits_write_nothing :
  (forall data u w,
     slot_occupied w (AppointmentCreate.psychologist_id data)
       (AppointmentCreate.date data) (AppointmentCreate.time data) ->
     create_appointment data u w
     = (Raise (HTTPException 400 "Horário não disponível"), w))
  /\ (forall k data u w,
        (forall a, In a (appointments (db w)) -> Appointment.id a <> k) ->
        update_appointment k data u w
        = (Raise (HTTPException 404 "Agendamento não encontrado"), w))
  /\ (forall k data u w a,
        find (by_id k) (appointments (db w)) = Some a ->
        User.type u = PSICOLOGO ->
        Appointment.psychologist_id a <> User.id u ->
        update_appointment k data u w
        = (Raise (HTTPException 403
                    "Sem permissão para alterar este agendamento"), w))
  /\ (forall k u w,
        (forall a, In a (appointments (db w)) -> Appointment.id a <> k) ->
        cancel_appointment k u w
        = (Raise (HTTPException 404 "Agendamento não encontrado"), w)).
Proof.
  split; [|split; [|split]].
  - intros data u w Htaken. rewrite create_appointment_run.
    destruct (find _ (appointments (db w))) eqn:Hfind; [reflexivity|].
    apply find_slot_taken_None in Hfind. contradiction.
  - intros k data u w Hnone. apply find_by_id_None in Hnone.
    rewrite update_appointment_run, Hnone. reflexivity.
  - intros k data u w a Hfind Hty Hpsy.
    rewrite update_appointment_run, Hfind.
    destruct (forbidden u a) eqn:Hforb; [reflexivity|].
    exfalso. apply not_true_iff_false in Hforb. apply Hforb.
    apply forbidden_true. split; assumption.
  - intros k u w Hnone. apply find_by_id_None in Hnone.
    rewrite cancel_appointment_run, Hnone. reflexivity.
Qed.

(** ** What no request does *)

(** Writing an object over the row it was loaded from keeps every column on
    which the two agree. *)
Lemma write_row_map {B} (f : Appointment.t -> B) obj rows a :
  find (by_id (Appointment.id obj)) rows = Some a ->
  f obj = f a ->
  map f (write_row obj rows) = map f rows.
Proof.
  intros Hfind Hf. induction rows as [|x rows IH]; simpl in *; [reflexivity|].
  unfold by_id in Hfind at 1.
  destruct (Appointment.id x =? Appointment.id obj); simpl.
  - injection Hfind as ->. rewrite Hf. reflexivity.
  - rewrite (IH Hfind). reflexivity.
Qed.

Lemma write_row_same rows a :
  find (by_id (Appointment.id a)) rows = Some a -> write_row a rows = rows.
Proof.
  intros Hfind.
  pose proof (write_row_map (fun r => r) a rows a Hfind eq_refl) as H.
  rewrite !map_id in H. exact H.
Qed.

Lemma handle_keeps_rows w rq :
  (exists added, keys (handle w rq) = (keys w ++ added)%list)
  /\ patients (db (handle w rq)) = patients (db w)
  /\ users (db (handle w rq)) = users (db w)
  /\ exists mails,
       outbox (handle w rq) = (outbox w ++ mails)%list
       /\ (List.length mails <= 1)%nat.
Proof.
  assert (Hstay : (exists added : list (Z * Z * Z),
                     keys w = (keys w ++ added)%list)
                  /\ patients (db w) = patients (db w)
                  /\ users (db w) = users (db w)
                  /\ exists mails,
                       outbox w = (outbox w ++ mails)%list
                       /\ (List.length mails <= 1)%nat).
  { split; [exists []; rewrite app_nil_r; reflexivity|].
    split; [reflexivity|]. split; [reflexivity|].
    exists []. rewrite app_nil_r. split; [reflexivity | simpl; lia]. }
  destruct rq as [data u|k data u|k u]; simpl.
  - rewrite create_appointment_run.
    destruct (find _ (appointments (db w))); simpl; [exact Hstay|].
    split; [|split; [reflexivity|split; [reflexivity|]]].
    + unfold keys. simpl. rewrite map_app. eexists. reflexivity.
    + eexists. split; [reflexivity|].
      unfold created_mail. destruct (patient_of _ _); simpl; lia.
  - rewrite update_appointment_run.
    destruct (find (by_id k) (appointments (db w))) as [a|] eqn:Hfind;
      simpl; [|exact Hstay].
    destruct (forbidden u a); simpl; [exact Hstay|].
    split; [|split; [reflexivity|split; [reflexivity|]]].
    + exists []. rewrite app_nil_r. unfold keys. simpl.
      apply find_by_id_Some in Hfind as Hk. destruct Hk as [_ Hk]. subst k.
      apply write_row_map with (a := a).
      * rewrite apply_update_id. exact Hfind.
      * rewrite apply_update_fields. reflexivity.
    + eexists. split; [reflexivity|].
      unfold rescheduled_mail. destruct (moved _ _); [|simpl; lia].
      destruct (patient_of _ _); simpl; lia.
  - rewrite cancel_appointment_run.
    destruct (find (by_id k) (appointments (db w))) as [a|] eqn:Hfind;
      simpl; [|exact Hstay].
    split; [|split; [reflexivity|split; [reflexivity|]]].
    + exists []. rewrite app_nil_r. unfold keys. simpl.
      apply find_by_id_Some in Hfind as Hk. destruct Hk as [_ Hk]. subst k.
      apply write_row_map with (a := a); [exact Hfind | reflexivity].
    + eexists. split; [reflexivity|].
      unfold canceled_mail.
      destruct (patient_of _ _); [destruct (psychologist_of _ _)|];
        simpl; lia.
Qed.

(** X6. No sequence of create, update and cancel requests removes an
    appointment or changes the id, the patient or the practitioner of a
    stored one: row by row these columns stay, and rows are only added at
    the end.  The patients and users tables are never written, and the
    outbox only grows, by at most one e-mail per request. *)
Theorem requests_never_delete requests w :
  (exists added, keys (serve requests w) = (keys w ++ added)%list)
  /\ patients (db (serve requests w)) = patients (db w)
  /\ users (db (serve requests w)) = users (db w)
  /\ exists mails,
       outbox (serve requests w) = (outbox w ++ mails)%list
       /\ (List.length mails <= List.length requests)%nat.
Proof.
  unfold serve. revert w.
  induction requests as [|rq requests IH]; simpl; intros w.
  - split; [exists []; rewrite app_nil_r; reflexivity|].
    split; [reflexivity|]. split; [reflexivity|].
    exists []. rewrite app_nil_r. split; [reflexivity | simpl; lia].
  - destruct (IH (handle w rq))
      as [[added Hkeys] [Hpat [Husr [mails [Hout Hlen]]]]].
    destruct (handle_keeps_rows w rq)
      as [[added1 Hkeys1] [Hpat1 [Husr1 [mails1 [Hout1 Hlen1]]]]].
    split; [|split; [congruence|split; [congruence|]]].
    + exists (added1 ++ added)%list.
      rewrite Hkeys, Hkeys1, app_assoc. reflexivity.
    + exists (mails1 ++ mails)%list. split.
      * rewrite Hout, Hout1, app_assoc. reflexivity.
      * rewrite length_app. lia.
Qed.

(** X7. Primary keys stay unique: a table with unique ids has unique ids
    after any sequence of requests, and so has every table grown from an
    empty one. *)
Theorem primary_keys_stay_unique requests :
  (forall w, pk_unique w -> pk_unique (serve requests w))
  /\ (forall ps us mails,
        pk_unique (serve requests (mkWorld (mkSession [] ps us) mails))).
Proof.
  split.
  - intros w. apply serve_pk_unique.
  - intros ps us mails. apply serve_pk_unique. constructor.
Qed.

(** ** Double booking *)

Lemma handle_no_double_booking w rq :
  ~ is_update rq -> no_double_booking w -> no_double_booking (handle w rq).
Proof.
  intros Hrq Hw. destruct rq as [data u|k data u|k u]; simpl in *;
    [| exfalso; apply Hrq; exact I |].
  - rewrite create_appointment_run.
    destruct (find _ (appointments (db w))) eqn:Hfree; simpl; [exact Hw|].
    rewrite find_slot_taken_None in Hfree.
    intros a b Ha Hb Hsa Hsb Hp Hd Ht. simpl in Ha, Hb.
    rewrite in_app_iff in Ha, Hb. simpl in Ha, Hb.
    destruct Ha as [Ha|[<-|[]]], Hb as [Hb|[<-|[]]].
    + apply Hw; assumption.
    + exfalso. apply Hfree. exists a. unfold scheduled_at.
      simpl in Hp, Hd, Ht. tauto.
    + exfalso. apply Hfree. exists b. unfold scheduled_at.
      simpl in Hp, Hd, Ht. split; [exact Hb|]. repeat split; congruence.
    + reflexivity.
  - rewrite cancel_appointment_run.
    destruct (find (by_id k) (appointments (db w))) as [c|]; simpl;
      [|exact Hw].
    intros a b Ha Hb Hsa Hsb. simpl in Ha, Hb.
    apply write_row_In in Ha, Hb.
    destruct Ha as [Ha| ->]; [|simpl in Hsa; discriminate].
    destruct Hb as [Hb| ->]; [|simpl in Hsb; discriminate].
    apply Hw; assumption.
Qed.

(** X8. Create and cancel keep bookings single: if no practitioner is
    double-booked, then after any sequence of create and cancel requests no
    practitioner has two SCHEDULED appointments under different ids at one
    date and time.  (Updates are left out: they may double-book.) *)
Theorem create_cancel_never_double_book requests w :
  (forall rq, In rq requests -> ~ is_update rq) ->
  no_double_booking w ->
  no_double_booking (serve requests w).
Proof.
  unfold serve. revert w.
  induction requests as [|rq requests IH]; simpl; intros w Hreq Hw;
    [exact Hw|].
  apply IH.
  - intros rq' Hin. apply Hreq. right. exact Hin.
  - apply handle_no_double_booking; [|exact Hw].
    apply Hreq. left. reflexivity.
Qed.

Lemma create_cancel_never_double_book_witness :
  no_double_booking
    (serve [Create (AppointmentCreate.mk 1 10 "2025-03-10" "10:00") ana_user;
            Create (AppointmentCreate.mk 7 10 "2025-03-10" "10:00") dr_silva;
            Cancel 1 dr_costa;
            Create (AppointmentCreate.mk 7 10 "2025-03-10" "10:00") dr_silva]
       opening_day).
Proof.
  apply create_cancel_never_double_book.
  - simpl. intros rq [<-|[<-|[<-|[<-|[]]]]]; simpl; tauto.
  - intros a b [].
Defined.

(** ** Requests that change nothing *)

Lemma moved_same a : moved a a = false.
Proof. unfold moved. rewrite !String.eqb_refl. reflexivity. Qed.

(** X9. An authorized update whose payload provides no field, or only
    values the appointment already has, returns the appointment as stored
    and leaves the store and the outbox exactly as they were. *)
Theorem update_without_change k data u w a :
  find (by_id k) (appointments (db w)) = Some a ->
  ~ (User.type u = PSICOLOGO /\ Appointment.psychologist_id a <> User.id u) ->
  (forall v, AppointmentUpdate.date data = Some v -> v = Appointment.date a) ->
  (forall v, AppointmentUpdate.time data = Some v -> v = Appointment.time a) ->
  (forall v, AppointmentUpdate.status data = Some v ->
             v = Appointment.status a) ->
  update_appointment k data u w = (Return a, w).
Proof.
  intros Hfind Hauth Hd Ht Hs.
  rewrite update_appointment_run, Hfind.
  destruct (forbidden u a) eqn:Hforb;
    [exfalso; apply Hauth, forbidden_true; exact Hforb|].
  cbv zeta.
  assert (Hsame : apply_update data a = a).
  { rewrite apply_update_fields.
    destruct (AppointmentUpdate.date data) as [d|];
      [rewrite (Hd d eq_refl)|];
      (destruct (AppointmentUpdate.time data) as [t|];
         [rewrite (Ht t eq_refl)|]);
      (destruct (AppointmentUpdate.status data) as [st|];
         [rewrite (Hs st eq_refl)|]);
      destruct a; reflexivity. }
  rewrite Hsame.
  apply find_by_id_Some in Hfind as Hk. destruct Hk as [_ Hk]. subst k.
  rewrite (write_row_same _ _ Hfind).
  unfold rescheduled_mail. rewrite moved_same, app_nil_r.
  destruct w as [[rows ps us] mails]. reflexivity.
Qed.

Lemma update_without_change_witness :
  update_appointment 2 (AppointmentUpdate.mk None (Some "15:00") None)
    ana_user clinic
  = (Return (Appointment.mk 2 1 10 "2025-03-10" "15:00" AGENDADO), clinic).
Proof.
  apply (update_without_change 2
           (AppointmentUpdate.mk None (Some "15:00") None) ana_user clinic
           (Appointment.mk 2 1 10 "2025-03-10" "15:00" AGENDADO)).
  - reflexivity.
  - intros [Hty _]. discriminate.
  - discriminate.
  - intros v [= <-]. reflexivity.
  - discriminate.
Defined.

(** X10. Cancel does not look at the status it overwrites: a second cancel
    of the same id gives the same response as the first, leaves the store
    as the first left it, and hands the mail service the same e-mails the
    first did, whoever the two callers are. *)
Theorem cancel_twice k (u1 u2 : User.t) w :
  let first := cancel_appointment k u1 w in
  let second := cancel_appointment k u2 (snd first) in
  fst second = fst first
  /\ db (snd second) = db (snd first)
  /\ exists mails,
       outbox (snd first) = (outbox w ++ mails)%list
       /\ outbox (snd second) = (outbox (snd first) ++ mails)%list.
Proof.
  cbv zeta. rewrite (cancel_appointment_run k u1 w).
  destruct (find (by_id k) (appointments (db w))) as [a|] eqn:Hfind.
  - cbv zeta. cbn [snd fst]. rewrite cancel_appointment_run.
    cbn [db appointments patients users outbox].
    set (obj := setattr a (F_status CANCELADO)).
    apply find_by_id_Some in Hfind as Hk. destruct Hk as [_ Hk]. subst k.
    change (Appointment.id a) with (Appointment.id obj) in Hfind |- *.
    pose proof (find_by_id_written _ _ _ Hfind) as Hstored.
    rewrite Hstored. cbv zeta. cbn [snd fst db outbox].
    change (setattr obj (F_status CANCELADO)) with obj.
    rewrite (write_row_same _ _ Hstored).
    split; [reflexivity|]. split; [reflexivity|].
    exists (canceled_mail (db w) obj). split; reflexivity.
  - cbn [snd fst]. rewrite cancel_appointment_run, Hfind. cbn [snd fst].
    split; [reflexivity|]. split; [reflexivity|].
    exists []. rewrite app_nil_r. split; reflexivity.
Qed.

(** ** Offered slots and bookable slots *)

Lemma available_iff date psychologist_id rows slot :
  In slot
    (filter
       (fun slot =>
          negb (existsb (String.eqb slot)
                  (map Appointment.time
                     (filter
                        (fun a =>
                           String.eqb (Appointment.date a) date
                           && (Appointment.psychologist_id a
                               =? psychologist_id)
                           && AppointmentStatus_eqb (Appointment.status a)
                                AGENDADO)
                        rows))))
       all_slots) <->
  In slot all_slots
  /\ ~ exists a, In a rows /\ scheduled_at psychologist_id date slot a.
Proof.
  rewrite filter_In, negb_true_iff, <- not_true_iff_false, occupied_time.
  reflexivity.
Qed.

Lemma find_app_None {A} (p : A -> bool) l m :
  find p l = None -> find p (l ++ m) = find p m.
Proof.
  induction l as [|x l IH]; simpl; [reflexivity|].
  destruct (p x); [discriminate | exact IH].
Qed.

(** X11. The availability query and the conflict check of create agree: a
    slot is offered for a date and practitioner exactly when it is one of
    the seven labels and a create for that practitioner, date and slot
    succeeds, whoever the patient and the caller are. *)
Theorem offered_iff_bookable date psychologist_id w :
  exists slots,
    get_available_slots date psychologist_id w = (Return slots, w)
    /\ forall slot patient_id u,
         In slot slots <->
         In slot all_slots
         /\ exists obj w',
              create_appointment
                (AppointmentCreate.mk patient_id psychologist_id date slot)
                u w = (Return obj, w').
Proof.
  rewrite get_available_slots_run. eexists. split; [reflexivity|].
  intros slot pid u. rewrite available_iff, create_appointment_run.
  cbn [AppointmentCreate.psychologist_id AppointmentCreate.date
       AppointmentCreate.time].
  rewrite <- find_slot_taken_None.
  destruct (find _ (appointments (db w))) as [a|].
  - split; intros [Hin H]; exfalso.
    + discriminate.
    + destruct H as [obj [w' H]]. discriminate.
  - split; intros [Hin _]; (split; [exact Hin|]).
    + eexists. eexists. reflexivity.
    + reflexivity.
Qed.

(** X12. A successful create takes its slot: right after it, every create
    for the same practitioner, date and time is rejected with the 400 error,
    and the availability answer for that date and practitioner is the
    answer from before without the booked time. *)
Theorem create_occupies_slot data u w obj w' :
  create_appointment data u w = (Return obj, w') ->
  (forall patient_id u2,
     create_appointment
       (AppointmentCreate.mk patient_id
          (AppointmentCreate.psychologist_id data)
          (AppointmentCreate.date data) (AppointmentCreate.time data))
       u2 w'
     = (Raise (HTTPException 400 "Horário não disponível"), w'))
  /\ exists before after,
       get_available_slots (AppointmentCreate.date data)
         (AppointmentCreate.psychologist_id data) w = (Return before, w)
       /\ get_available_slots (AppointmentCreate.date data)
            (AppointmentCreate.psychologist_id data) w' = (Return after, w')
       /\ forall slot,
            In slot after <->
            In slot before /\ slot <> AppointmentCreate.time data.
Proof.
  rewrite create_appointment_run.
  destruct (find _ (appointments (db w))) eqn:Hfree; [discriminate|].
  cbv zeta. intros [= <- <-]. split.
  - intros pid u2. rewrite create_appointment_run.
    cbn [db appointments AppointmentCreate.psychologist_id
         AppointmentCreate.date AppointmentCreate.time].
    rewrite (find_app_None _ _ _ Hfree). simpl.
    unfold slot_taken. simpl.
    rewrite Z.eqb_refl, !String.eqb_refl. reflexivity.
  - rewrite !get_available_slots_run. eexists. eexists.
    split; [reflexivity|]. split; [reflexivity|].
    intros slot. cbn [db appointments]. rewrite !available_iff.
    apply find_slot_taken_None in Hfree.
    split.
    + intros [Hin Hocc]. split; [split; [exact Hin|]|].
      * intros [a [Ha Hs]]. apply Hocc. exists a.
        split; [apply in_or_app; left; exact Ha | exact Hs].
      * intros ->. apply Hocc.
        exists (new_row data (appointments (db w))).
        split; [apply in_or_app; right; left; reflexivity|].
        unfold scheduled_at. simpl. tauto.
    + intros [[Hin Hocc] Hne]. split; [exact Hin|].
      intros [a [Ha Hs]]. apply in_app_or in Ha.
      destruct Ha as [Ha|[<-|[]]].
      * apply Hocc. exists a. tauto.
      * destruct Hs as [_ [_ [Ht _]]]. simpl in Ht. congruence.
Qed.

Lemma create_occupies_slot_witness :
  create_appointment (AppointmentCreate.mk 7 10 "2025-03-10" "08:00")
    dr_silva
    (snd (create_appointment (AppointmentCreate.mk 1 10 "2025-03-10" "08:00")
            ana_user opening_day))
  = (Raise (HTTPException 400 "Horário não disponível"),
     snd (create_appointment (AppointmentCreate.mk 1 10 "2025-03-10" "08:00")
            ana_user opening_day)).
Proof.
  exact (proj1 (create_occupies_slot
                  (AppointmentCreate.mk 1 10 "2025-03-10" "08:00")
                  ana_user opening_day
                  (Appointment.mk 1 1 10 "2025-03-10" "08:00" AGENDADO)
                  _ eq_refl) 7 dr_silva).
Defined.

(** ** Listings after a change *)

Lemma filter_none {A} (l : list A) : filter (fun _ => false) l = [].
Proof. induction l as [|x l IH]; simpl; [reflexivity | exact IH]. Qed.

Lemma get_appointments_run v w :
  get_appointments v w =
  (Return (filter (shown_to v (patients (db w))) (appointments (db w))), w).
Proof.
  unfold get_appointments, shown_to.
  destruct (UserType_eqb (User.type v) PSICOLOGO); [reflexivity|].
  run_handler. fold (by_email v).
  destruct (find (by_email v) (patients (db w))) as [p|]; [reflexivity|].
  rewrite filter_none. reflexivity.
Qed.

Lemma shown_to_same v ps a b :
  Appointment.psychologist_id a = Appointment.psychologist_id b ->
  Appointment.patient_id a = Appointment.patient_id b ->
  shown_to v ps a = shown_to v ps b.
Proof. unfold shown_to. intros -> ->. reflexivity. Qed.

Lemma write_row_filter_map {B} (f : Appointment.t -> B) p obj rows a :
  find (by_id (Appointment.id obj)) rows = Some a ->
  p obj = p a -> f obj = f a ->
  map f (filter p (write_row obj rows)) = map f (filter p rows).
Proof.
  intros Hfind Hp Hf.
  induction rows as [|x rows IH]; simpl in *; [reflexivity|].
  unfold by_id in Hfind at 1.
  destruct (Appointment.id x =? Appointment.id obj); simpl.
  - injection Hfind as ->. rewrite Hp.
    destruct (p a); simpl; [rewrite Hf|]; reflexivity.
  - destruct (p x); simpl; rewrite (IH Hfind); reflexivity.
Qed.

(** X13. A created appointment shows up at the end of the listing of the
    practitioner it names and of the caller whose e-mail resolves to its
    patient, and in no other practitioner's listing. *)
Theorem create_then_listed data u w obj w' v :
  create_appointment data u w = (Return obj, w') ->
  exists before after,
    get_appointments v w = (Return before, w)
    /\ get_appointments v w' = (Return after, w')
    /\ (User.type v = PSICOLOGO ->
        User.id v = AppointmentCreate.psychologist_id data ->
        after = (before ++ [obj])%list)
    /\ (User.type v = PSICOLOGO ->
        User.id v <> AppointmentCreate.psychologist_id data ->
        after = before)
    /\ (User.type v <> PSICOLOGO ->
        forall p,
          find (by_email v) (patients (db w)) = Some p ->
          Patient.id p = AppointmentCreate.patient_id data ->
          after = (before ++ [obj])%list).
Proof.
  rewrite create_appointment_run.
  destruct (find _ (appointments (db w))); [discriminate|].
  cbv zeta. intros [= <- <-]. rewrite !get_appointments_run.
  eexists. eexists. split; [reflexivity|]. split; [reflexivity|].
  cbn [db appointments patients]. rewrite filter_app. simpl.
  assert (Hshown :
            shown_to v (patients (db w)) (new_row data (appointments (db w)))
            = if UserType_eqb (User.type v) PSICOLOGO then
                AppointmentCreate.psychologist_id data =? User.id v
              else
                match find (by_email v) (patients (db w)) with
                | Some p => AppointmentCreate.patient_id data =? Patient.id p
                | None => false
                end) by reflexivity.
  rewrite Hshown. clear Hshown.
  split; [|split].
  - intros Hty Hid. rewrite Hty, Hid. simpl. rewrite Z.eqb_refl. reflexivity.
  - intros Hty Hid. rewrite Hty. simpl.
    destruct (Z.eqb_spec (AppointmentCreate.psychologist_id data)
                (User.id v)); [congruence|].
    rewrite app_nil_r. reflexivity.
  - intros Hty p Hp Hid.
    destruct (UserType_eqb (User.type v) PSICOLOGO) eqn:Heq;
      [apply UserType_eqb_eq in Heq; contradiction|].
    rewrite Hp, Hid, Z.eqb_refl. reflexivity.
Qed.

Lemma create_then_listed_witness :
  fst (get_appointments dr_costa
         (snd (create_appointment
                 (AppointmentCreate.mk 1 11 "2025-03-10" "15:00")
                 ana_user clinic)))
  = Return [Appointment.mk 5 1 11 "2025-03-10" "15:00" AGENDADO].
Proof.
  destruct (create_then_listed
              (AppointmentCreate.mk 1 11 "2025-03-10" "15:00")
              ana_user clinic
              (Appointment.mk 5 1 11 "2025-03-10" "15:00" AGENDADO)
              (snd (create_appointment
                      (AppointmentCreate.mk 1 11 "2025-03-10" "15:00")
                      ana_user clinic))
              dr_costa eq_refl)
    as [before [after [Hbefore [Hafter [Hown _]]]]].
  rewrite Hafter. simpl. rewrite (Hown eq_refl eq_refl).
  vm_compute in Hbefore. injection Hbefore as <-. reflexivity.
Defined.

(** X14. Neither an update nor a cancel takes an appointment out of
    anybody's listing or puts one in: for every caller, the ids listed
    after the request are the ids listed before it, in the same order. *)
Theorem update_and_cancel_keep_listings v w :
  (forall k data u,
     exists before after,
       get_appointments v w = (Return before, w)
       /\ get_appointments v (handle w (Update k data u))
          = (Return after, handle w (Update k data u))
       /\ map Appointment.id after = map Appointment.id before)
  /\ (forall k u,
        exists before after,
          get_appointments v w = (Return before, w)
          /\ get_appointments v (handle w (Cancel k u))
             = (Return after, handle w (Cancel k u))
          /\ map Appointment.id after = map Appointment.id before).
Proof.
  split.
  - intros k data u. rewrite !get_appointments_run.
    eexists. eexists. split; [reflexivity|]. split; [reflexivity|].
    simpl. rewrite update_appointment_run.
    destruct (find (by_id k) (appointments (db w))) as [a|] eqn:Hfind;
      [|reflexivity].
    destruct (forbidden u a); [reflexivity|].
    cbn [snd db appointments patients].
    apply find_by_id_Some in Hfind as Hk. destruct Hk as [_ Hk]. subst k.
    apply write_row_filter_map with (a := a).
    + rewrite apply_update_id. exact Hfind.
    + apply shown_to_same; rewrite apply_update_fields; reflexivity.
    + apply apply_update_id.
  - intros k u. rewrite !get_appointments_run.
    eexists. eexists. split; [reflexivity|]. split; [reflexivity|].
    simpl. rewrite cancel_appointment_run.
    destruct (find (by_id k) (appointments (db w))) as [a|] eqn:Hfind;
      [|reflexivity].
    cbn [snd db appointments patients].
    apply find_by_id_Some in Hfind as Hk. destruct Hk as [_ Hk]. subst k.
    apply write_row_filter_map with (a := a).
    + exact Hfind.
    + apply shown_to_same; reflexivity.
    + reflexivity.
Qed.

(** ** Rescheduling moves the booking *)

(** X15. In a store with unique primary keys, a successful update that
    leaves the appointment SCHEDULED blocks the slot it now has: every
    create for it is rejected with the 400 error.  If the update changed
    the date or the time and no other appointment is SCHEDULED in the slot
    the appointment had before, a create for that old slot succeeds. *)
Theorem reschedule_moves_booking k data u w a obj w' :
  pk_unique w ->
  find (by_id k) (appointments (db w)) = Some a ->
  update_appointment k data u w = (Return obj, w') ->
  (Appointment.status obj = AGENDADO ->
   forall patient_id u2,
     create_appointment
       (AppointmentCreate.mk patient_id (Appointment.psychologist_id obj)
          (Appointment.date obj) (Appointment.time obj)) u2 w'
     = (Raise (HTTPException 400 "Horário não disponível"), w'))
  /\ (Appointment.date obj <> Appointment.date a
      \/ Appointment.time obj <> Appointment.time a ->
      (forall b,
         In b (appointments (db w)) -> Appointment.id b <> k ->
         ~ scheduled_at (Appointment.psychologist_id a)
             (Appointment.date a) (Appointment.time a) b) ->
      forall patient_id u2,
      exists o w'',
        create_appointment
          (AppointmentCreate.mk patient_id (Appointment.psychologist_id a)
             (Appointment.date a) (Appointment.time a)) u2 w'
        = (Return o, w'')).
Proof.
  intros Hpk Hfind Hrun.
  destruct (update_appointment_success _ _ _ _ _ _ Hrun)
    as [a0 [Hfind0 [_ [Hobj [Hdb Hstored]]]]].
  assert (a0 = a) by congruence. subst a0.
  split.
  - intros Hst pid u2. rewrite create_appointment_run.
    cbn [AppointmentCreate.psychologist_id AppointmentCreate.date
         AppointmentCreate.time].
    destruct (find (slot_taken _ _ _) (appointments (db w'))) eqn:Hfree;
      [reflexivity|].
    exfalso. apply find_slot_taken_None in Hfree. apply Hfree.
    exists obj. split.
    + apply find_by_id_Some in Hstored. tauto.
    + unfold scheduled_at. tauto.
  - intros Hmoved Hother pid u2. rewrite create_appointment_run.
    cbn [AppointmentCreate.psychologist_id AppointmentCreate.date
         AppointmentCreate.time].
    assert (Hfree : find (slot_taken (Appointment.psychologist_id a)
                            (Appointment.date a) (Appointment.time a))
                      (appointments (db w')) = None).
    { apply find_slot_taken_None. intros [b [Hb Hs]].
      rewrite Hdb in Hb. simpl in Hb.
      apply find_by_id_Some in Hfind as Hk. destruct Hk as [_ Hk].
      destruct (write_row_In_unique _ _ _ Hpk Hb) as [->|[Hb' Hid]].
      - destruct Hs as [_ [Hd [Ht _]]]. tauto.
      - apply (Hother b Hb'); [|exact Hs].
        rewrite Hobj, apply_update_id in Hid. congruence. }
    rewrite Hfree. eexists. eexists. reflexivity.
Qed.

Lemma reschedule_moves_booking_witness :
  exists o w'',
    create_appointment (AppointmentCreate.mk 7 10 "2025-03-10" "15:00")
      dr_silva
      (snd (update_appointment 2
              (AppointmentUpdate.mk None (Some "16:00") None)
              ana_user clinic))
    = (Return o, w'').
Proof.
  refine (proj2 (reschedule_moves_booking 2
                   (AppointmentUpdate.mk None (Some "16:00") None)
                   ana_user clinic
                   (Appointment.mk 2 1 10 "2025-03-10" "15:00" AGENDADO)
                   (Appointment.mk 2 1 10 "2025-03-10" "16:00" AGENDADO)
                   _ clinic_pk_unique eq_refl eq_refl) _ _ 7 dr_silva).
  - right. discriminate.
  - simpl. unfold scheduled_at.
    intros b [<-|[<-|[<-|[<-|[]]]]] Hid [_ [_ [Ht Hs]]]; simpl in *;
      congruence.
Defined.
